(** * Feature-extraction pipeline of the deepfake-audio project

    A shallow embedding of the notebook [Feature_Extraction.ipynb]:
    [count_files_in_dataset], [extract_features],
    [process_audio_files_for_norm], [process_audio_files_release_in_wild]
    and the export of the collected rows through [pd.DataFrame] and
    [DataFrame.to_csv]; and of the copy loop of [Data_Preparation.ipynb].

    Python dictionaries keep their insertion order, and the column order
    of the exported table is that order, so a [dict] is an association
    list with unique keys ([pydict]).  The directory tree and the files
    written by the export are finite maps from paths.  Exceptions are the
    [Raise] results of [result]; the error log is threaded as state, and
    writing to it can itself raise.  What [librosa], [numpy], [pandas]
    and the operating system do is kept as parameters or modelled from
    their documented behaviour, where each is introduced. *)

From Stdlib Require Import ZArith Ascii DecimalString.
From stdpp Require Import gmap strings list fin_maps.

Local Open Scope Z_scope.
Local Open Scope nat_scope.

(** ** Python values and exceptions *)

(** A raised Python exception: its class name and [str(e)]. *)
Record exn := Exn { exn_class : string; exn_msg : string }.

Inductive result (A : Type) : Type :=
| Ok (a : A)
| Raise (e : exn).
Arguments Ok {A} a.
Arguments Raise {A} e.

Definition rbind {A B : Type} (m : result A) (k : A → result B) : result B :=
  match m with
  | Ok a => k a
  | Raise e => Raise e
  end.

Declare Scope py_scope.
Delimit Scope py_scope with py.
Notation "'let!' x := m 'in' k" := (rbind m (λ x, k))
  (at level 10, x pattern, m at level 100, k at level 200) : py_scope.
Local Open Scope py_scope.

(** [for x in l: s = body x s], stopping at the first exception. *)
Fixpoint for_each {A S : Type} (l : list A) (body : A → S → result S) (s : S)
  : result S :=
  match l with
  | [] => Ok s
  | x :: l' => let! s' := body x s in for_each l' body s'
  end.

Definition is_ok {A : Type} (r : result A) : bool :=
  match r with Ok _ => true | Raise _ => false end.

(** ** Strings *)

(** [str(n)] for a non-negative integer, as in an f-string. *)
Definition str_nat (n : nat) : string := NilZero.string_of_uint (Nat.to_uint n).

(** The line feed, [os.linesep] on the platform of the notebook. *)
Definition linesep : string := String "010"%char EmptyString.

(** [s.endswith(suffix)] *)
Definition endswith (s suffix : string) : bool :=
  let n := String.length s in
  let m := String.length suffix in
  (m <=? n) && String.eqb (String.substring (n - m) m s) suffix.

(** [s.startswith(prefix)] *)
Definition startswith (s prefix : string) : bool := String.prefix prefix s.

(** ** Dictionaries in insertion order *)

Module Dict.
Section Operations.
Context {V : Type}.

Definition t := list (string * V).

Definition empty : t := [].

Definition keys (d : t) : list string := map fst d.
Definition values (d : t) : list V := map snd d.

(** [d[k]]; [None] stands for [KeyError]. *)
Fixpoint get (k : string) (d : t) : option V :=
  match d with
  | [] => None
  | (k', v) :: d' => if String.eqb k k' then Some v else get k d'
  end.

(** [d[k] = v]: an existing key keeps its place, a new one goes last. *)
Fixpoint set (k : string) (v : V) (d : t) : t :=
  match d with
  | [] => [(k, v)]
  | (k', v') :: d' =>
      if String.eqb k k' then (k', v) :: d' else (k', v') :: set k v d'
  end.

(** [bool(d)] *)
Definition truthy (d : t) : bool :=
  match d with [] => false | _ :: _ => true end.
End Operations.
Arguments t V : clear implicits.
End Dict.

Abbreviation pydict := Dict.t.

(** ** The directory tree *)

Inductive node :=
| Dir (entries : list string)   (* a directory and its [os.listdir] *)
| File.                          (* anything that exists but is no directory *)

Definition sep : string := "/".

(** [os.path.join(a, *p)] of [posixpath] *)
Definition join2 (path b : string) : string :=
  if startswith b sep then b
  else if String.eqb path EmptyString || endswith path sep then path +:+ b
  else path +:+ sep +:+ b.

Definition os_path_join (a : string) (p : list string) : string :=
  fold_left join2 p a.

Definition os_path_exists (fs : gmap string node) (path : string) : bool :=
  bool_decide (is_Some (fs !! path)).

(** [repr] of a path inside the message of an [OSError] *)
Definition quoted (path : string) : string := "'" +:+ path +:+ "'".

Definition os_listdir (fs : gmap string node) (path : string)
  : result (list string) :=
  match fs !! path with
  | Some (Dir entries) => Ok entries
  | Some File =>
      Raise (Exn "NotADirectoryError" ("[Errno 20] Not a directory: " +:+ quoted path))
  | None =>
      Raise (Exn "FileNotFoundError"
               ("[Errno 2] No such file or directory: " +:+ quoted path))
  end.

(** ** Notebook configuration (cell 2) *)

Definition splits : list string := ["training"; "validation"; "testing"].
Definition labels : pydict Z := [("fake", 0%Z); ("real", 1%Z)].
Definition processed_output_dir : string := "Processed_Features".

Definition wav : string := ".wav".

(** ** [count_files_in_dataset] *)

(** The counts dictionary: nested by split, or flat by label. *)
Inductive file_counts :=
| SplitCounts (d : pydict (pydict nat))
| LabelCounts (d : pydict nat).

(** The [if os.path.exists(folder_path): count = len([...]) else: count = 0]
    of both branches. *)
Definition count_folder (fs : gmap string node) (folder_path : string)
  : result nat :=
  if os_path_exists fs folder_path then
    let! entries := os_listdir fs folder_path in
    Ok (length (List.filter (λ f, endswith f wav) entries))
  else Ok 0.

Definition count_labels_loop (fs : gmap string node) (base_dir : string)
    (dirs : list string) (labels : pydict Z)
    (init : pydict nat * nat) : result (pydict nat * nat) :=
  for_each (Dict.keys labels)
    (λ label '(counts, total_files),
       let folder_path := os_path_join base_dir (dirs ++ [label]) in
       let! count := count_folder fs folder_path in
       Ok (Dict.set label count counts, total_files + count))
    init.

Definition count_files_in_dataset (fs : gmap string node) (base_dir : string)
    (splits : option (list string)) (labels : pydict Z)
  : result (file_counts * nat) :=
  match splits with
  | Some ((_ :: _) as splits) =>  (* [if splits:] a non-empty list *)
      let! (file_counts, total_files) :=
        for_each splits
          (λ split '(file_counts, total_files),
             let! (split_counts, total_files) :=
               count_labels_loop fs base_dir [split] labels (Dict.empty, total_files) in
             Ok (Dict.set split split_counts file_counts, total_files))
          (Dict.empty, 0) in
      Ok (SplitCounts file_counts, total_files)
  | _ =>                          (* [None] or an empty list *)
      let! (file_counts, total_files) :=
        count_labels_loop fs base_dir [] labels (Dict.empty, 0) in
      Ok (LabelCounts file_counts, total_files)
  end.

(** ** Errors and the error log

    [error_log.txt] is opened in append mode at every failure: its
    content is the list of the strings written so far.  A computation
    that can write to it and can raise is an [io]; a raised exception
    leaves the log as it stands. *)

Definition io (A : Type) : Type := list string → result A * list string.

Definition io_ret {A : Type} (a : A) : io A := λ log, (Ok a, log).

Definition io_bind {A B : Type} (m : io A) (k : A → io B) : io B :=
  λ log,
    match m log with
    | (Ok a, log') => k a log'
    | (Raise e, log') => (Raise e, log')
    end.

Definition lift {A : Type} (r : result A) : io A := λ log, (r, log).

Notation "'do!' x := m 'in' k" := (io_bind m (λ x, k))
  (at level 10, x pattern, m at level 100, k at level 200) : py_scope.

Fixpoint for_each_io {A S : Type} (l : list A) (body : A → S → io S) (s : S)
  : io S :=
  match l with
  | [] => io_ret s
  | x :: l' => do! s' := body x s in for_each_io l' body s'
  end.

(** ** The numeric libraries

    [numpy] and [librosa] are not part of the repository.  A float is an
    element of an arbitrary type [F]; an array is a list (of lists) of
    floats; every [librosa] entry point is a function that returns an
    array or raises an [Exception]. *)

Inductive value (F : Type) : Type :=
| VFloat (x : F)
| VStr (s : string)
| VInt (z : Z).
Arguments VFloat {F} x.
Arguments VStr {F} s.
Arguments VInt {F} z.

Record Librosa (F : Type) : Type := {
  load : string → result (list F * Z);          (* [sr=None]: native rate *)
  chroma_stft : list F → Z → result (list (list F));
  rms : list F → result (list (list F));
  spectral_centroid : list F → Z → result (list (list F));
  spectral_bandwidth : list F → Z → result (list (list F));
  spectral_rolloff : list F → Z → result (list (list F));
  zero_crossing_rate : list F → result (list (list F));
  mfcc : list F → Z → nat → result (list (list F));
}.
Arguments load {F} _ _.
Arguments chroma_stft {F} _ _ _.
Arguments rms {F} _ _.
Arguments spectral_centroid {F} _ _ _.
Arguments spectral_bandwidth {F} _ _ _.
Arguments spectral_rolloff {F} _ _ _.
Arguments zero_crossing_rate {F} _ _.
Arguments mfcc {F} _ _ _ _.

(** The progress bar: [tqdm(total=...)], [update], [close]. *)
Record tqdm := Tqdm { total : nat; n : nat }.

Definition tqdm_new (total : nat) : tqdm := Tqdm total 0.
Definition tqdm_update (bar : tqdm) (k : nat) : tqdm := Tqdm (total bar) (n bar + k).

(** [a[i]] on the first axis of an array *)
Definition getitem {A : Type} (a : list A) (i : nat) : result A :=
  match a !! i with
  | Some x => Ok x
  | None =>
      Raise (Exn "IndexError"
               ("index " +:+ str_nat i +:+ " is out of bounds for axis 0 with size "
                +:+ str_nat (length a)))
  end.

(** [labels[label]] *)
Definition dict_getitem {V : Type} (d : pydict V) (k : string) : result V :=
  match Dict.get k d with
  | Some v => Ok v
  | None => Raise (Exn "KeyError" k)
  end.

(** The f-string [f"mfcc{i}"] *)
Definition mfcc_key (i : nat) : string := "mfcc" +:+ str_nat i.

Section Pipeline.
Context {F : Type}.
(** [np.mean] of the flattened array *)
Variable np_mean : list F → F.
Variable librosa : Librosa F.
Variable fs : gmap string node.
(** Opening [error_log] for appending and writing a text can raise (the
    log cannot be opened, the text cannot be encoded, the disk is full):
    the exception, and what the failed attempt left in the file. *)
Variable log_refuses : string → option (exn * list string).

Definition np_mean2 (a : list (list F)) : F := np_mean (concat a).

(** *** [extract_features] *)

(** The body of the [try] block. *)
Definition extract_features_try (file_path : string)
  : result (pydict (value F)) :=
  let! (y, sr) := load librosa file_path in
  let! chroma := chroma_stft librosa y sr in
  let! energy := rms librosa y in
  let! centroid := spectral_centroid librosa y sr in
  let! bandwidth := spectral_bandwidth librosa y sr in
  let! rolloff := spectral_rolloff librosa y sr in
  let! zcr := zero_crossing_rate librosa y in
  let features : pydict (value F) :=
    [("chroma_stft", VFloat (np_mean2 chroma));
     ("rms", VFloat (np_mean2 energy));
     ("spectral_centroid", VFloat (np_mean2 centroid));
     ("spectral_bandwidth", VFloat (np_mean2 bandwidth));
     ("rolloff", VFloat (np_mean2 rolloff));
     ("zero_crossing_rate", VFloat (np_mean2 zcr))] in
  let! mfccs := mfcc librosa y sr 20 in
  for_each (seq 1 20)
    (λ i features,
       let! coefficient := getitem mfccs (i - 1) in
       Ok (Dict.set (mfcc_key i) (VFloat (np_mean coefficient)) features))
    features.

Definition error_line (file_path : string) (e : exn) : string :=
  "Error processing " +:+ file_path +:+ ": " +:+ exn_msg e +:+ linesep.

(** [with open(error_log, "a") as log_file: log_file.write(text)] *)
Definition append_log (text : string) : io unit :=
  λ log,
    match log_refuses text with
    | None => (Ok (), log ++ [text])
    | Some (e, partial) => (Raise e, log ++ partial)
    end.

(** [try: ... except Exception as e: log; return None]; what the handler
    itself raises leaves the function. *)
Definition extract_features (file_path : string)
  : io (option (pydict (value F))) :=
  match extract_features_try file_path with
  | Ok features => io_ret (Some features)
  | Raise e =>
      do! _ := append_log (error_line file_path e) in
      io_ret None
  end.

(** [if features:] on a dictionary or [None] *)
Definition truthy (features : option (pydict (value F))) : bool :=
  match features with
  | Some d => Dict.truthy d
  | None => false
  end.

(** *** [process_audio_files_for_norm] *)

(** The generator expression summed into [total_files]. *)
Definition for_norm_total_files (base_dir : string) : result nat :=
  for_each splits
    (λ split acc,
       for_each (Dict.keys labels)
         (λ label acc,
            let folder_path := os_path_join base_dir [split; label] in
            if os_path_exists fs folder_path then
              let! entries := os_listdir fs folder_path in
              Ok (acc + length entries)
            else Ok acc)
         acc)
    0.

(** The body of [for file in os.listdir(folder_path)], the same in both
    functions but for the [split] key: [split] is [None] in the flat
    dataset, whose rows have no such key. *)
Definition process_file (split : option string) (label folder_path file : string)
    (st : list (pydict (value F)) * tqdm)
  : io (list (pydict (value F)) * tqdm) :=
  let (all_features, progress_bar) := st in
  if endswith file wav then
    let file_path := os_path_join folder_path [file] in
    do! features := extract_features file_path in
    do! all_features :=
      match features with
      | Some d =>
          if truthy features then
            let d := Dict.set "filename" (VStr file) d in
            let d := match split with
                     | Some split => Dict.set "split" (VStr split) d
                     | None => d
                     end in
            let d := Dict.set "label" (VStr label) d in
            do! code := lift (dict_getitem labels label) in
            let d := Dict.set "LABEL" (VInt code) d in
            io_ret (all_features ++ [d])
          else io_ret all_features
      | None => io_ret all_features
      end in
    io_ret (all_features, tqdm_update progress_bar 1)
  else io_ret st.

(** The body of [for label in labels], the same in both functions. *)
Definition process_folder (split : option string) (folder_path label : string)
    (st : list (pydict (value F)) * tqdm)
  : io (list (pydict (value F)) * tqdm) :=
  if negb (os_path_exists fs folder_path) then io_ret st   (* [continue] *)
  else
    do! entries := lift (os_listdir fs folder_path) in
    for_each_io entries (process_file split label folder_path) st.

(** The function up to [progress_bar.close()], with the bar. *)
Definition for_norm_run (base_dir : string)
  : io (list (pydict (value F)) * tqdm) :=
  do! total_files := lift (for_norm_total_files base_dir) in
  let progress_bar := tqdm_new total_files in
  for_each_io splits
    (λ split st,
       for_each_io (Dict.keys labels)
         (λ label st,
            process_folder (Some split)
              (os_path_join base_dir [split; label]) label st)
         st)
    ([], progress_bar).

Definition process_audio_files_for_norm (base_dir : string)
  : io (list (pydict (value F))) :=
  do! (all_features, progress_bar) := for_norm_run base_dir in
  io_ret all_features.

(** *** [process_audio_files_release_in_wild] *)

Definition release_in_wild_total_files (base_dir : string) : result nat :=
  for_each (Dict.keys labels)
    (λ label acc,
       let folder_path := os_path_join base_dir [label] in
       if os_path_exists fs folder_path then
         let! entries := os_listdir fs folder_path in
         Ok (acc + length entries)
       else Ok acc)
    0.

Definition release_in_wild_run (base_dir : string)
  : io (list (pydict (value F)) * tqdm) :=
  do! total_files := lift (release_in_wild_total_files base_dir) in
  let progress_bar := tqdm_new total_files in
  for_each_io (Dict.keys labels)
    (λ label st,
       process_folder None (os_path_join base_dir [label]) label st)
    ([], progress_bar).

Definition process_audio_files_release_in_wild (base_dir : string)
  : io (list (pydict (value F))) :=
  do! (all_features, progress_bar) := release_in_wild_run base_dir in
  io_ret all_features.

End Pipeline.

(** ** The export: [pd.DataFrame(rows).to_csv(path, index=False)]

    [pandas] is not part of the repository either.  The model follows its
    documented behaviour on a list of dictionaries: the columns are the
    keys in order of first appearance, a key missing from a row is a
    missing cell, and [to_csv] writes (mode [w]) a header line and one
    line per row with the [csv] module's minimal quoting. *)

Record DataFrame (F : Type) : Type := {
  columns : list string;
  records : list (list (option (value F)));
}.
Arguments columns {F} _.
Arguments records {F} _.

Definition key_in (k : string) (ks : list string) : bool :=
  existsb (String.eqb k) ks.

Definition add_column (cols : list string) (k : string) : list string :=
  if key_in k cols then cols else cols ++ [k].

Definition pd_DataFrame {F : Type} (data : list (pydict (value F)))
  : DataFrame F :=
  let cols := fold_left (λ cols d, fold_left add_column (Dict.keys d) cols) data [] in
  {| columns := cols;
     records := map (λ d, map (λ c, Dict.get c d) cols) data |}.

Definition dquote : ascii := "034"%char.

Fixpoint csv_special (s : string) : bool :=
  match s with
  | EmptyString => false
  | String c s' =>
      Ascii.eqb c ","%char || Ascii.eqb c dquote || Ascii.eqb c "010"%char
      || csv_special s'
  end.

Fixpoint csv_double (s : string) : string :=
  match s with
  | EmptyString => EmptyString
  | String c s' =>
      if Ascii.eqb c dquote then String dquote (String dquote (csv_double s'))
      else String c (csv_double s')
  end.

Definition csv_field (s : string) : string :=
  if csv_special s then String dquote (csv_double s +:+ String dquote EmptyString)
  else s.

(** [csv.writer.writerow] with the delimiter [,] and [os.linesep] *)
Definition writerow (fields : list string) : string :=
  match fields with
  | [EmptyString] => String dquote (String dquote linesep)
  | _ => String.concat "," (map csv_field fields) +:+ linesep
  end.

Definition str_Z (z : Z) : string := NilZero.string_of_int (Z.to_int z).

Section CsvExport.
Context {F : Type}.
(** The text written for a float cell. *)
Variable float_repr : F → string.

Definition cell_text (c : option (value F)) : string :=
  match c with
  | None => EmptyString           (* [na_rep] *)
  | Some (VFloat x) => float_repr x
  | Some (VStr s) => s
  | Some (VInt z) => str_Z z
  end.

Definition csv_text (df : DataFrame F) : string :=
  writerow (columns df)
  +:+ String.concat EmptyString (map (λ r, writerow (map cell_text r)) (records df)).

(** [df.to_csv(path, index=False)] on the files written so far *)
Definition to_csv (df : DataFrame F) (path : string)
    (files : gmap string string) : gmap string string :=
  <[path := csv_text df]> files.

(** The three statements after a [process_...] call. *)
Definition export (rows : list (pydict (value F))) (name : string)
    (files : gmap string string) : gmap string string :=
  let df := pd_DataFrame rows in
  let csv := os_path_join processed_output_dir [name] in
  to_csv df csv files.
End CsvExport.

(** ** Reading a table back

    The convention of the format, by which a written text is read: the
    fields of a record are separated by commas, a record ends with a
    line feed, and a field that starts with a double quote runs to the
    closing one and may hold any character, a double quote being written
    twice.  It says what a written text means. *)

Inductive reading := AtRecord | AtField | InPlain | InQuoted | AfterQuote.

Definition comma : ascii := ","%char.
Definition line_feed : ascii := "010"%char.

Fixpoint csv_read_from (st : reading) (field : string) (record : list string)
    (text : string) : list (list string) :=
  match text with
  | EmptyString =>
      match st with
      | AtRecord => []
      | _ => [record ++ [field]]
      end
  | String c text' =>
      match st with
      | InQuoted =>
          if Ascii.eqb c dquote then csv_read_from AfterQuote field record text'
          else csv_read_from InQuoted (field +:+ String c EmptyString) record text'
      | AfterQuote =>
          if Ascii.eqb c dquote then
            csv_read_from InQuoted (field +:+ String dquote EmptyString) record text'
          else if Ascii.eqb c comma then
            csv_read_from AtField EmptyString (record ++ [field]) text'
          else if Ascii.eqb c line_feed then
            (record ++ [field]) :: csv_read_from AtRecord EmptyString [] text'
          else csv_read_from InPlain (field +:+ String c EmptyString) record text'
      | AtRecord =>
          if Ascii.eqb c line_feed then
            [] :: csv_read_from AtRecord EmptyString [] text'
          else if Ascii.eqb c dquote then
            csv_read_from InQuoted EmptyString record text'
          else if Ascii.eqb c comma then
            csv_read_from AtField EmptyString (record ++ [EmptyString]) text'
          else csv_read_from InPlain (String c EmptyString) record text'
      | AtField =>
          if Ascii.eqb c line_feed then
            (record ++ [EmptyString]) :: csv_read_from AtRecord EmptyString [] text'
          else if Ascii.eqb c dquote then
            csv_read_from InQuoted EmptyString record text'
          else if Ascii.eqb c comma then
            csv_read_from AtField EmptyString (record ++ [EmptyString]) text'
          else csv_read_from InPlain (String c EmptyString) record text'
      | InPlain =>
          if Ascii.eqb c comma then
            csv_read_from AtField EmptyString (record ++ [field]) text'
          else if Ascii.eqb c line_feed then
            (record ++ [field]) :: csv_read_from AtRecord EmptyString [] text'
          else csv_read_from InPlain (field +:+ String c EmptyString) record text'
      end
  end.

Definition csv_read (text : string) : list (list string) :=
  csv_read_from AtRecord EmptyString [] text.

(** ** The canonical schema *)

Definition canonical_keys : list string :=
  ["chroma_stft"; "rms"; "spectral_centroid"; "spectral_bandwidth"; "rolloff";
   "zero_crossing_rate";
   "mfcc1"; "mfcc2"; "mfcc3"; "mfcc4"; "mfcc5"; "mfcc6"; "mfcc7"; "mfcc8";
   "mfcc9"; "mfcc10"; "mfcc11"; "mfcc12"; "mfcc13"; "mfcc14"; "mfcc15";
   "mfcc16"; "mfcc17"; "mfcc18"; "mfcc19"; "mfcc20"].

(** The columns of a row: the features, then the bookkeeping keys; the
    label code is stored under the key [LABEL]. *)
Definition row_keys (with_split : bool) : list string :=
  canonical_keys ++ ["filename"] ++ (if with_split then ["split"] else [])
  ++ ["label"; "LABEL"].

(** ** Vocabulary of the statements *)

Inductive dataset := for_norm | release_in_the_wild.

(** The file name joined to [processed_output_dir] in cells 5 and 6. *)
Definition csv_name (ds : dataset) : string :=
  match ds with
  | for_norm => "for_norm_features.csv"
  | release_in_the_wild => "release_in_wild_features.csv"
  end.

(** The rows of the first dataset carry a [split] key. *)
Definition has_split (ds : dataset) : bool :=
  match ds with
  | for_norm => true
  | release_in_the_wild => false
  end.

(** The [splits] argument of [count_files_in_dataset] in cell 3. *)
Definition dataset_splits (ds : dataset) : option (list string) :=
  match ds with
  | for_norm => Some splits
  | release_in_the_wild => None
  end.

(** The split/label cells of a dataset in the order of the loops. *)
Definition cells (ds : dataset) : list (option string * string) :=
  match ds with
  | for_norm => split ← splits; label ← Dict.keys labels; [(Some split, label)]
  | release_in_the_wild => label ← Dict.keys labels; [(None, label)]
  end.

Definition cell_path (base_dir : string) (c : option string * string) : string :=
  match c with
  | (Some split, label) => os_path_join base_dir [split; label]
  | (None, label) => os_path_join base_dir [label]
  end.

Definition is_file (fs : gmap string node) (path : string) : bool :=
  match fs !! path with Some File => true | _ => false end.

(** A directory layout: every cell is a directory or is absent. *)
Definition directory_layout (fs : gmap string node) (ds : dataset)
    (base_dir : string) : Prop :=
  Forall (λ c, is_file fs (cell_path base_dir c) = false) (cells ds).

Definition listing (fs : gmap string node) (folder_path : string) : list string :=
  match fs !! folder_path with
  | Some (Dir entries) => entries
  | _ => []
  end.

Definition wav_files (entries : list string) : list string :=
  List.filter (λ f, endswith f wav) entries.

(** A dataset entry: a matching file of a cell. *)
Record entry := Entry {
  entry_split : option string;
  entry_label : string;
  entry_folder : string;
  entry_file : string;
}.

Definition entry_path (e : entry) : string :=
  os_path_join (entry_folder e) [entry_file e].

(** The entries of a dataset: the matching files of every cell, in the
    order of the traversal. *)
Definition folder_entries (fs : gmap string node) (c : option string * string)
    (folder_path : string) : list entry :=
  Entry c.1 c.2 folder_path <$> wav_files (listing fs folder_path).

Definition entries (fs : gmap string node) (ds : dataset) (base_dir : string)
  : list entry :=
  c ← cells ds; folder_entries fs c (cell_path base_dir c).

(** The number of directory entries of the cells, of any name. *)
Definition listed (fs : gmap string node) (ds : dataset) (base_dir : string)
  : nat :=
  list_sum (map (λ c, length (listing fs (cell_path base_dir c))) (cells ds)).

Definition dict_sum (d : pydict nat) : nat := list_sum (Dict.values d).

Definition counts_sum (fc : file_counts) : nat :=
  match fc with
  | SplitCounts d => list_sum (map dict_sum (Dict.values d))
  | LabelCounts d => dict_sum d
  end.

Definition count_at (fc : file_counts) (c : option string * string)
  : option nat :=
  match fc, c with
  | SplitCounts d, (Some split, label) => Dict.get split d ≫= Dict.get label
  | LabelCounts d, (None, label) => Dict.get label d
  | _, _ => None
  end.

(** The record of a failure as the log holds it: one text, ended by a
    line feed. *)
Definition failure_record (file_path message : string) : string :=
  "Error processing " +:+ file_path +:+ ": " +:+ message
  +:+ String "010"%char EmptyString.

Section Outcome.
Context {F : Type}.
Variable np_mean : list F → F.
Variable librosa : Librosa F.
Variable fs : gmap string node.
Variable log_refuses : string → option (exn * list string).

Definition run (ds : dataset) (base_dir : string)
  : io (list (pydict (value F)) * tqdm) :=
  match ds with
  | for_norm => for_norm_run np_mean librosa fs log_refuses base_dir
  | release_in_the_wild =>
      release_in_wild_run np_mean librosa fs log_refuses base_dir
  end.

Definition process (ds : dataset) (base_dir : string)
  : io (list (pydict (value F))) :=
  match ds with
  | for_norm => process_audio_files_for_norm np_mean librosa fs log_refuses base_dir
  | release_in_the_wild =>
      process_audio_files_release_in_wild np_mean librosa fs log_refuses base_dir
  end.

Definition total_files (ds : dataset) (base_dir : string) : result nat :=
  match ds with
  | for_norm => for_norm_total_files fs base_dir
  | release_in_the_wild => release_in_wild_total_files fs base_dir
  end.

(** Loading and extraction succeed on an entry. *)
Definition succeeded (e : entry) : bool :=
  is_ok (extract_features_try np_mean librosa (entry_path e)).

Definition successes (es : list entry) : nat :=
  length (List.filter succeeded es).

(** The row of an entry: its feature vector, followed by the file name,
    the split (first dataset only), the label and the label code. *)
Definition feature_row (e : entry) (code : Z) (features : pydict (value F))
  : pydict (value F) :=
  features ++ [("filename", VStr (entry_file e))]
  ++ match entry_split e with
     | Some split => [("split", VStr split)]
     | None => []
     end
  ++ [("label", VStr (entry_label e)); ("LABEL", VInt code)].

(** The rows an entry contributes: one when it succeeds, none otherwise. *)
Definition feature_rows (e : entry) : list (pydict (value F)) :=
  match extract_features_try np_mean librosa (entry_path e),
        Dict.get (entry_label e) labels with
  | Ok features, Some code => [feature_row e code features]
  | _, _ => []
  end.

(** The records the failing entries leave in the error log. *)
Definition failure_lines (es : list entry) : list string :=
  flat_map (λ e, match extract_features_try np_mean librosa (entry_path e) with
                 | Ok _ => []
                 | Raise x => [failure_record (entry_path e) (exn_msg x)]
                 end) es.

(** The log takes the record of every failing entry. *)
Definition log_accepts (es : list entry) : Prop :=
  Forall (λ e, ∀ x,
            extract_features_try np_mean librosa (entry_path e) = Raise x →
            log_refuses (failure_record (entry_path e) (exn_msg x)) = None)
    es.

(** What visiting the entries [es] does to the loop state and the log. *)
Record extends (es : list entry)
    (st : list (pydict (value F)) * tqdm) (log : list string)
    (st' : list (pydict (value F)) * tqdm) (log' : list string) : Prop := {
  ext_rows : st'.1 = st.1 ++ flat_map feature_rows es;
  ext_log : log' = log ++ failure_lines es;
  ext_total : total st'.2 = total st.2;
  ext_n : n st'.2 = n st.2 + length es;
}.
End Outcome.

(** ** A small data set

    [training/fake] holds a readable file, a corrupt one and a text
    file, [training/real] one readable file; the other cells are absent. *)

Definition demo_fs : gmap string node :=
  <["d/training/fake" := Dir ["a.wav"; "b.wav"; "notes.txt"]]>
  (<["d/training/real" := Dir ["c.wav"]]> ∅).

Definition wild_fs : gmap string node :=
  <["w/fake" := Dir []]> (<["w/real" := Dir ["x.wav"]]> ∅).

Definition demo_lib : Librosa Z := {|
  load p :=
    if endswith p "b.wav"
    then Raise (Exn "LibsndfileError" "Error opening: Format not recognised.")
    else Ok ([1; 2; 3]%Z, 16000%Z);
  chroma_stft y sr := Ok [[1; 2]; [3; 4]]%Z;
  rms y := Ok [[5; 7]]%Z;
  spectral_centroid y sr := Ok [[5; 7]]%Z;
  spectral_bandwidth y sr := Ok [[5; 7]]%Z;
  spectral_rolloff y sr := Ok [[5; 7]]%Z;
  zero_crossing_rate y := Ok [[5; 7]]%Z;
  mfcc y sr k := Ok ((λ i, [Z.of_nat i; Z.of_nat i + 2]%Z) <$> seq 0 k);
|}.

(** A library on which every file fails to load. *)
Definition corrupt_lib : Librosa Z := {|
  load p := Raise (Exn "LibsndfileError" "Error opening: Format not recognised.");
  chroma_stft := chroma_stft demo_lib;
  rms := rms demo_lib;
  spectral_centroid := spectral_centroid demo_lib;
  spectral_bandwidth := spectral_bandwidth demo_lib;
  spectral_rolloff := spectral_rolloff demo_lib;
  zero_crossing_rate := zero_crossing_rate demo_lib;
  mfcc := mfcc demo_lib;
|}.

(** A log that takes every text, and one that cannot be opened. *)
Definition accepts_all (text : string) : option (exn * list string) := None.

Definition locked_log (text : string) : option (exn * list string) :=
  Some (Exn "PermissionError" "[Errno 13] Permission denied: 'error_log.txt'", []).

Definition demo_mean (l : list Z) : Z :=
  (foldr Z.add 0 l / Z.of_nat (length l))%Z.

Definition demo_repr (z : Z) : string := str_Z z +:+ ".0".

(** ** Counting with any parameters

    [count_files_in_dataset] takes its splits and labels as arguments:
    the cells it visits, in order, for any of them. *)
Definition cells_of (splits : option (list string)) (labels : pydict Z)
  : list (option string * string) :=
  match splits with
  | Some ((_ :: _) as splits) =>
      split ← splits; label ← Dict.keys labels; [(Some split, label)]
  | _ => label ← Dict.keys labels; [(None, label)]
  end.

Definition wav_count (fs : gmap string node) (base_dir : string)
    (c : option string * string) : nat :=
  length (wav_files (listing fs (cell_path base_dir c))).

(** A library whose cepstral matrix has 13 rows, whatever is asked. *)
Definition short_lib : Librosa Z := {|
  load := load demo_lib;
  chroma_stft := chroma_stft demo_lib;
  rms := rms demo_lib;
  spectral_centroid := spectral_centroid demo_lib;
  spectral_bandwidth := spectral_bandwidth demo_lib;
  spectral_rolloff := spectral_rolloff demo_lib;
  zero_crossing_rate := zero_crossing_rate demo_lib;
  mfcc y sr k := mfcc demo_lib y sr 13;
|}.

(** ** [Data_Preparation.ipynb]: copying the listed files by label

    The metadata table is the list of its rows, and what [print] writes
    is a list of lines.  The file tree holds folders and regular files,
    without links: a location is the list of the names that lead to it
    from the root, and a path is resolved to a location the way the
    operating system does it, one component after the other from the
    working directory (or from the root), each looked up in a folder
    that must exist; [..] leads to the parent.  Two paths name the same
    file when they resolve to the same location.

    [shutil] is not part of the repository: [shutil.copy] copies the
    content of a regular file to the destination, into it when the
    destination is a folder, and raises when source and destination are
    the same file, when either cannot be opened, or when the operating
    system refuses the copy.  Which [OSError] a path that cannot be
    opened raises is left to the operating system. *)

Inductive item :=
| Blob (content : string)   (* a regular file *)
| Folder.

Definition location : Type := list string.

Record meta_row := MetaRow {
  row_file : string;
  row_speaker : string;
  row_label : string;
}.

Definition audio_path : string := "./data/release_in_the_wild".
Definition fake_folder : string := "./data/processed_data/fake".
Definition real_folder : string := "./data/processed_data/real".

(** What stands between the separators of a path. *)
Fixpoint components_from (acc s : string) : list string :=
  match s with
  | EmptyString => [acc]
  | String c s' =>
      if Ascii.eqb c "/"%char then acc :: components_from EmptyString s'
      else components_from (acc +:+ String c EmptyString) s'
  end.

Definition components (path : string) : list string :=
  components_from EmptyString path.

(** [os.path.basename]: what follows the last separator *)
Definition os_path_basename (path : string) : string :=
  List.last (components path) EmptyString.

(** What a location holds; the root is a folder. *)
Definition kind (tree : gmap location item) (loc : location) : option item :=
  match loc with
  | [] => Some Folder
  | _ :: _ => tree !! loc
  end.

(** A component that names an entry: not empty, not [.]. *)
Definition plain (c : string) : bool :=
  negb (String.eqb c EmptyString || String.eqb c ".").

(** One component further, from a folder. *)
Definition next (cur : location) (c : string) : location :=
  if String.eqb c ".." then removelast cur
  else if plain c then cur ++ [c]
  else cur.

(** Every component is looked up in a folder; [None] when one of them
    is looked up in what is no folder. *)
Fixpoint walk (tree : gmap location item) (cur : location)
    (comps : list string) : option location :=
  match comps with
  | [] => Some cur
  | c :: comps' =>
      match kind tree cur with
      | Some Folder => walk tree (next cur c) comps'
      | _ => None
      end
  end.

Module Prep.
Section Preparation.
(** The working directory of the notebook. *)
Variable cwd : location.
(** What the operating system refuses for a tree, a source and a
    destination that can both be opened (permission, full disk): the
    exception, and what the failed copy left at the destination, if
    anything. *)
Variable refuses :
  gmap location item → string → string → option (exn * option string).
(** The [OSError] of a path that cannot be opened in a tree. *)
Variable os_error : gmap location item → string → exn.

(** The location a path leads to, if it leads anywhere. *)
Definition resolve (tree : gmap location item) (path : string)
  : option location :=
  if String.eqb path EmptyString then None
  else walk tree (if startswith path sep then [] else cwd) (components path).

Definition os_path_exists (tree : gmap location item) (path : string) : bool :=
  match resolve tree path with
  | Some loc => bool_decide (is_Some (kind tree loc))
  | None => false
  end.

Definition os_path_isdir (tree : gmap location item) (path : string) : bool :=
  match resolve tree path with
  | Some loc => match kind tree loc with Some Folder => true | _ => false end
  | None => false
  end.

(** [os.path.samefile], [False] when either path cannot be examined *)
Definition samefile (tree : gmap location item) (src dst : string) : bool :=
  match resolve tree src, resolve tree dst with
  | Some l1, Some l2 =>
      bool_decide (is_Some (kind tree l1)) && bool_decide (is_Some (kind tree l2))
      && bool_decide (l1 = l2)
  | _, _ => false
  end.

(** [open(src, 'rb')] and what is read: the source must be a regular
    file. *)
Definition read_file (tree : gmap location item) (src : string) : result string :=
  match resolve tree src with
  | Some loc =>
      match kind tree loc with
      | Some (Blob content) => Ok content
      | _ => Raise (os_error tree src)
      end
  | None => Raise (os_error tree src)
  end.

Definition shutil_copy (tree : gmap location item) (src dst : string)
  : result unit * gmap location item :=
  let dst :=
    if os_path_isdir tree dst then os_path_join dst [os_path_basename src]
    else dst in
  if samefile tree src dst then
    (Raise (Exn "SameFileError"
              (quoted src +:+ " and " +:+ quoted dst +:+ " are the same file")),
     tree)
  else
    match read_file tree src with
    | Raise e => (Raise e, tree)
    | Ok content =>
        (* [open(dst, 'wb')], then the copy *)
        match resolve tree dst with
        | None => (Raise (os_error tree dst), tree)
        | Some loc =>
            match kind tree loc with
            | Some Folder => (Raise (os_error tree dst), tree)
            | _ =>
                match refuses tree src dst with
                | Some (e, None) => (Raise e, tree)
                | Some (e, Some partial) => (Raise e, <[loc := Blob partial]> tree)
                | None => (Ok (), <[loc := Blob content]> tree)
                end
            end
        end
    end.

Definition src_path (row : meta_row) : string :=
  os_path_join audio_path [row_file row].

Definition dest_folder (row : meta_row) : string :=
  if String.eqb (row_label row) "spoof" then fake_folder else real_folder.

Definition dest_path (row : meta_row) : string :=
  os_path_join (dest_folder row) [row_file row].

(** The body of the loop over the rows of the metadata. *)
Definition prepare_row (row : meta_row) (st : gmap location item * list string)
  : gmap location item * list string :=
  let (tree, out) := st in
  if negb (os_path_exists tree (src_path row)) then
    (tree, out ++ ["File not found: " +:+ src_path row +:+ ". Skipping..."])
  else
    match shutil_copy tree (src_path row) (dest_path row) with
    | (Ok _, tree') => (tree', out)
    | (Raise e, tree') =>
        (tree', out ++ ["Error moving file " +:+ row_file row +:+ ": " +:+ exn_msg e])
    end.

Definition prepare (metadata : list meta_row)
    (st : gmap location item * list string) : gmap location item * list string :=
  fold_left (λ st row, prepare_row row st) metadata st.

(** The locations of the three folders of the notebook. *)
Definition audio_location : location := cwd ++ ["data"; "release_in_the_wild"].
Definition fake_location : location := cwd ++ ["data"; "processed_data"; "fake"].
Definition real_location : location := cwd ++ ["data"; "processed_data"; "real"].

Definition label_location (row : meta_row) : location :=
  if String.eqb (row_label row) "spoof" then fake_location else real_location.

(** The names a file name adds to the location of its folder. *)
Definition names (row : meta_row) : list string :=
  List.filter plain (components (row_file row)).

(** A destination that can be written: the path leads to a location
    that holds no folder. *)
Definition writable (tree : gmap location item) (path : string) : Prop :=
  ∃ loc, resolve tree path = Some loc ∧ kind tree loc ≠ Some Folder.
End Preparation.
End Prep.

(** A name without a separator. *)
Fixpoint no_sep (s : string) : bool :=
  match s with
  | EmptyString => true
  | String c s' => negb (Ascii.eqb c "/"%char) && no_sep s'
  end.

(** A location inside a folder. *)
Definition inside (folder loc : location) : Prop :=
  ∃ name rest, loc = folder ++ name :: rest.

(** What the loop may do to a tree: every location holds what it held,
    or holds a regular file, inside one of the two label folders, where
    no folder was. *)
Definition grown (cwd : location) (tree tree' : gmap location item) : Prop :=
  ∀ loc,
    tree' !! loc = tree !! loc
    ∨ (∃ content, tree' !! loc = Some (Blob content))
      ∧ (inside (Prep.fake_location cwd) loc ∨ inside (Prep.real_location cwd) loc)
      ∧ tree !! loc ≠ Some Folder.

(** A relative name without a [..] component. *)
Definition plain_name (name : string) : Prop :=
  startswith name sep = false ∧ ".." ∉ components name.

(** A downloaded corpus of three files, and its metadata, which also
    lists a file that is not there. *)
Definition wild_cwd : location := ["home"; "project"].

Definition wild_tree : gmap location item :=
  <[["home"; "project"; "data"; "release_in_the_wild"; "0.wav"] := Blob "zero"]>
  (<[["home"; "project"; "data"; "release_in_the_wild"; "1.wav"] := Blob "one"]>
  (<[["home"; "project"; "data"; "release_in_the_wild"; "2.wav"] := Blob "two"]>
  (<[["home"; "project"; "data"; "release_in_the_wild"] := Folder]>
  (<[["home"; "project"; "data"; "processed_data"; "fake"] := Folder]>
  (<[["home"; "project"; "data"; "processed_data"; "real"] := Folder]>
  (<[["home"; "project"; "data"; "processed_data"] := Folder]>
  (<[["home"; "project"; "data"] := Folder]>
  (<[["home"; "project"] := Folder]>
  (<[["home"] := Folder]> ∅))))))))).

Definition wild_meta : list meta_row :=
  [MetaRow "0.wav" "Alec Guinness" "spoof";
   MetaRow "1.wav" "Barack Obama" "bona-fide";
   MetaRow "9.wav" "Alec Guinness" "spoof";
   MetaRow "2.wav" "Alec Guinness" "Spoof"].

Definition no_refusal (tree : gmap location item) (src dst : string)
  : option (exn * option string) := None.

Definition no_such_file (tree : gmap location item) (path : string) : exn :=
  Exn "FileNotFoundError" ("[Errno 2] No such file or directory: " +:+ quoted path).

(** ** The log as seen by a computation

    A computation only appends to the log: started on any log, it does
    what it does on the empty log and leaves the earlier lines in front. *)
Definition appends_only {A : Type} (m : io A) : Prop :=
  ∀ log, m log = ((m []).1, log ++ (m []).2).

(** ** Facts about dictionaries *)

Lemma keys_set {V : Type} (k : string) (v : V) (d : pydict V) :
  Dict.keys (Dict.set k v d) = add_column (Dict.keys d) k.
Proof.
  unfold add_column. induction d as [|[k' v'] d IH]; simpl; [done|].
  destruct (String.eqb k k'); simpl; [done|].
  rewrite IH. by destruct (key_in k (Dict.keys d)).
Qed.

Lemma set_fresh {V : Type} (k : string) (v : V) (d : pydict V) :
  key_in k (Dict.keys d) = false → Dict.set k v d = d ++ [(k, v)].
Proof.
  induction d as [|[k' v'] d IH]; simpl; [done|].
  destruct (String.eqb k k'); simpl; [done|]. intros H. by rewrite IH.
Qed.

Lemma keys_app {V : Type} (d1 d2 : pydict V) :
  Dict.keys (d1 ++ d2) = Dict.keys d1 ++ Dict.keys d2.
Proof. apply map_app. Qed.

(** ** [extract_features]: the shape of a returned vector *)

Section ExtractFacts.
Context {F : Type}.
Variable np_mean : list F → F.
Variable librosa : Librosa F.

(** A successful [try] block: every call returned, and the vector is
    the six means followed by the means of the first 20 rows of the
    cepstral matrix, in this order. *)
Lemma extract_features_try_ok (file_path : string) (d : pydict (value F)) :
  extract_features_try np_mean librosa file_path = Ok d →
  ∃ y sr mfccs,
    load librosa file_path = Ok (y, sr)
    ∧ mfcc librosa y sr 20 = Ok mfccs
    ∧ Dict.keys d = canonical_keys
    ∧ ∀ i, 1 ≤ i ≤ 20 →
        ∃ coefficient, mfccs !! (i - 1) = Some coefficient
          ∧ Dict.get (mfcc_key i) d = Some (VFloat (np_mean coefficient)).
Proof.
  unfold extract_features_try. intros H.
  destruct (load librosa file_path) as [[y sr]|]; simpl in H; [|discriminate H].
  destruct (chroma_stft librosa y sr); simpl in H; [|discriminate H].
  destruct (rms librosa y); simpl in H; [|discriminate H].
  destruct (spectral_centroid librosa y sr); simpl in H; [|discriminate H].
  destruct (spectral_bandwidth librosa y sr); simpl in H; [|discriminate H].
  destruct (spectral_rolloff librosa y sr); simpl in H; [|discriminate H].
  destruct (zero_crossing_rate librosa y); simpl in H; [|discriminate H].
  destruct (mfcc librosa y sr 20) as [mfccs|] eqn:Hmfcc; simpl in H; [|discriminate H].
  exists y, sr, mfccs. split; [done|]. split; [done|].
  unfold getitem in H.
  repeat match type of H with
         | context [mfccs !! ?k] =>
             destruct (mfccs !! k) eqn:?; simpl in H; [|discriminate H]
         end.
  injection H as <-. split; [reflexivity|].
  intros i Hi.
  do 21 (destruct i as [|i]; [try lia; eauto|]). lia.
Qed.
End ExtractFacts.


(** ** Loops that accumulate a sum *)

Lemma for_each_sum {A : Type} (l : list A) (body : A → nat → result nat)
    (f : A → nat) (P : A → Prop) :
  (∀ x acc, P x → body x acc = Ok (acc + f x)) →
  Forall P l →
  ∀ acc, for_each l body acc = Ok (acc + list_sum (map f l)).
Proof.
  intros Hbody HP. induction HP as [|x l Hx HP IH]; intros acc; simpl.
  - f_equal. lia.
  - rewrite (Hbody x acc Hx). simpl. rewrite IH. f_equal. lia.
Qed.

Lemma for_each_acc {A D : Type} (l : list A)
    (body : A → D * nat → result (D * nat))
    (upd : A → D → D) (f : A → nat) (P : A → Prop) :
  (∀ x d acc, P x → body x (d, acc) = Ok (upd x d, acc + f x)) →
  Forall P l →
  ∀ d acc,
    for_each l body (d, acc)
    = Ok (fold_left (λ d x, upd x d) l d, acc + list_sum (map f l)).
Proof.
  intros Hbody HP. induction HP as [|x l Hx HP IH]; intros d acc; simpl.
  - do 2 f_equal. lia.
  - rewrite (Hbody x d acc Hx). simpl. rewrite IH. do 2 f_equal. lia.
Qed.

(** ** The per-file step and the loops *)

Section RunFacts.
Context {F : Type}.
Variable np_mean : list F → F.
Variable librosa : Librosa F.
Variable fs : gmap string node.
Variable log_refuses : string → option (exn * list string).

Abbreviation extends := (extends np_mean librosa).
Abbreviation successes := (successes np_mean librosa).
Abbreviation feature_rows := (feature_rows np_mean librosa).
Abbreviation failure_lines := (failure_lines np_mean librosa).
Abbreviation accepts := (log_accepts np_mean librosa log_refuses).

Lemma extends_nil st log : extends [] st log st log.
Proof. split; simpl; by rewrite ?app_nil_r, ?Nat.add_0_r. Qed.

Lemma extends_app es1 es2 st log st1 log1 st2 log2 :
  extends es1 st log st1 log1 →
  extends es2 st1 log1 st2 log2 →
  extends (es1 ++ es2) st log st2 log2.
Proof.
  intros [E1 -> T1 N1] [E2 -> T2 N2]. split.
  - by rewrite E2, E1, flat_map_app, app_assoc.
  - unfold failure_lines. by rewrite flat_map_app, app_assoc.
  - congruence.
  - rewrite N2, N1, length_app. lia.
Qed.

Lemma failures_successes es :
  length (failure_lines es) + successes es = length es.
Proof.
  unfold failure_lines, successes, succeeded.
  induction es as [|e es IH]; simpl; [done|].
  destruct (extract_features_try np_mean librosa (entry_path e)); simpl in *; lia.
Qed.

Lemma labels_get label :
  label ∈ Dict.keys labels → ∃ code, Dict.get label labels = Some code.
Proof.
  intros H. apply list_elem_of_In in H. simpl in H.
  destruct H as [<-|[<-|[]]]; eauto.
Qed.

(** The four assignments to a returned vector append the four fields. *)
Lemma row_of_sets (e : entry) (code : Z) (d : pydict (value F)) :
  Dict.keys d = canonical_keys →
  Dict.set "LABEL" (VInt code)
    (Dict.set "label" (VStr (entry_label e))
       match entry_split e with
       | Some split =>
           Dict.set "split" (VStr split)
             (Dict.set "filename" (VStr (entry_file e)) d)
       | None => Dict.set "filename" (VStr (entry_file e)) d
       end)
  = feature_row e code d.
Proof.
  intros Hk. unfold feature_row.
  destruct (entry_split e) as [split|].
  - rewrite (set_fresh "filename") by (by rewrite Hk).
    rewrite (set_fresh "split") by (by rewrite keys_app, Hk).
    rewrite (set_fresh "label") by (by rewrite !keys_app, Hk).
    rewrite (set_fresh "LABEL") by (by rewrite !keys_app, Hk).
    by rewrite <- !app_assoc.
  - rewrite (set_fresh "filename") by (by rewrite Hk).
    rewrite (set_fresh "label") by (by rewrite keys_app, Hk).
    rewrite (set_fresh "LABEL") by (by rewrite !keys_app, Hk).
    by rewrite <- !app_assoc.
Qed.

(** What the handler writes is the record of the failure. *)
Lemma error_line_record (file_path : string) (x : exn) :
  error_line file_path x = failure_record file_path (exn_msg x).
Proof. reflexivity. Qed.

(** [extract_features], every case. *)
Lemma extract_features_cases (file_path : string) (log : list string) :
  extract_features np_mean librosa log_refuses file_path log
  = match extract_features_try np_mean librosa file_path with
    | Ok features => (Ok (Some features), log)
    | Raise x =>
        match log_refuses (failure_record file_path (exn_msg x)) with
        | None => (Ok None, log ++ [failure_record file_path (exn_msg x)])
        | Some (e', partial) => (Raise e', log ++ partial)
        end
    end.
Proof.
  unfold extract_features.
  destruct (extract_features_try np_mean librosa file_path) as [d|x]; [done|].
  unfold io_bind, append_log. rewrite error_line_record.
  by destruct (log_refuses _) as [[e' partial]|].
Qed.

(** The per-file step, every case. *)
Lemma process_file_cases split label folder_path file rows bar log :
  label ∈ Dict.keys labels →
  let e := Entry split label folder_path file in
  process_file np_mean librosa log_refuses split label folder_path file
    (rows, bar) log
  = if endswith file wav then
      match extract_features_try np_mean librosa (entry_path e) with
      | Ok features => (Ok (rows ++ feature_rows e, tqdm_update bar 1), log)
      | Raise x =>
          match log_refuses (failure_record (entry_path e) (exn_msg x)) with
          | None =>
              (Ok (rows, tqdm_update bar 1),
               log ++ [failure_record (entry_path e) (exn_msg x)])
          | Some (e', partial) => (Raise e', log ++ partial)
          end
      end
    else (Ok (rows, bar), log).
Proof.
  intros Hlabel e. unfold process_file.
  destruct (endswith file wav); [|done].
  change (os_path_join folder_path [file]) with (entry_path e).
  unfold io_bind at 1 2. rewrite extract_features_cases.
  destruct (labels_get label Hlabel) as [code Hcode].
  unfold feature_rows.
  destruct (extract_features_try np_mean librosa (entry_path e)) as [d|x] eqn:Htry.
  - destruct (extract_features_try_ok _ _ _ _ Htry) as (y & sr & m & _ & _ & Hk & _).
    assert (Dict.truthy d = true) as Ht by (by destruct d).
    cbn [truthy]. rewrite Ht.
    unfold io_bind, lift, io_ret, dict_getitem.
    change (entry_label e) with label. rewrite Hcode.
    rewrite <- (row_of_sets e code d Hk). reflexivity.
  - by destruct (log_refuses _) as [[e' partial]|].
Qed.

Lemma process_file_spec split label folder_path file st log :
  label ∈ Dict.keys labels →
  accepts (if endswith file wav then [Entry split label folder_path file] else []) →
  ∃ st' log',
    process_file np_mean librosa log_refuses split label folder_path file st log
      = (Ok st', log')
    ∧ extends
        (if endswith file wav then [Entry split label folder_path file] else [])
        st log st' log'.
Proof.
  intros Hlabel Hacc. destruct st as [rows bar].
  rewrite process_file_cases by done.
  destruct (endswith file wav).
  2: { eexists _, _. split; [reflexivity|]. apply extends_nil. }
  apply Forall_cons in Hacc as [Hacc _].
  set (e := Entry split label folder_path file) in *.
  destruct (extract_features_try np_mean librosa (entry_path e)) as [d|x] eqn:Htry.
  - eexists _, _. split; [reflexivity|].
    split; simpl; [by rewrite app_nil_r| |done..].
    unfold failure_lines. simpl. rewrite Htry. by rewrite app_nil_r.
  - rewrite (Hacc x eq_refl). eexists _, _. split; [reflexivity|].
    split; simpl; [|unfold failure_lines; simpl; by rewrite Htry|done..].
    unfold feature_rows. rewrite Htry. by rewrite app_nil_r.
Qed.

Lemma for_each_io_extends {A : Type} (pf : A → list entry) (P : A → Prop)
    (body : A → list (pydict (value F)) * tqdm
            → io (list (pydict (value F)) * tqdm)) (l : list A) :
  (∀ x st log, P x →
     ∃ st' log', body x st log = (Ok st', log')
                 ∧ extends (pf x) st log st' log') →
  Forall P l →
  ∀ st log,
    ∃ st' log', for_each_io l body st log = (Ok st', log')
                ∧ extends (x ← l; pf x) st log st' log'.
Proof.
  intros Hbody HP. induction HP as [|x l Hx HP IH]; intros st log.
  - eexists _, _. split; [reflexivity|]. apply extends_nil.
  - destruct (Hbody x st log Hx) as (st1 & log1 & E1 & X1).
    destruct (IH st1 log1) as (st2 & log2 & E2 & X2).
    exists st2, log2. split.
    + simpl. unfold io_bind. by rewrite E1.
    + rewrite bind_cons. by eapply extends_app.
Qed.

Lemma wav_files_bind split label folder_path (l : list string) :
  (file ← l; if endswith file wav then [Entry split label folder_path file] else [])
  = Entry split label folder_path <$> wav_files l.
Proof.
  induction l as [|file l IH]; [done|].
  rewrite bind_cons, IH. unfold wav_files. simpl.
  by destruct (endswith file wav).
Qed.

Lemma process_folder_spec split label folder_path st log :
  is_file fs folder_path = false →
  label ∈ Dict.keys labels →
  accepts (folder_entries fs (split, label) folder_path) →
  ∃ st' log',
    process_folder np_mean librosa fs log_refuses split folder_path label st log
      = (Ok st', log')
    ∧ extends (folder_entries fs (split, label) folder_path) st log st' log'.
Proof.
  unfold process_folder, os_path_exists, os_listdir, is_file, folder_entries,
    listing.
  intros Hfile Hlabel Hacc. destruct (fs !! folder_path) as [[l|]|]; [|done|].
  - rewrite bool_decide_eq_true_2 by eauto. cbn [negb fst snd].
    unfold io_bind at 1, lift. rewrite <- wav_files_bind.
    rewrite <- wav_files_bind in Hacc.
    apply for_each_io_extends
      with (P := λ file, accepts (if endswith file wav
                                      then [Entry split label folder_path file]
                                      else [])).
    + intros file st1 log1 Hf. by apply process_file_spec.
    + unfold log_accepts in Hacc.
      by apply Forall_bind in Hacc.
  - rewrite bool_decide_eq_false_2 by (by intros [? ?]). cbn [negb].
    eexists _, _. split; [reflexivity|]. apply extends_nil.
Qed.

(** The generator summed into [total_files], one folder at a time. *)
Lemma listdir_len_ok folder_path acc :
  is_file fs folder_path = false →
  (if os_path_exists fs folder_path
   then let! entries := os_listdir fs folder_path in Ok (acc + length entries)
   else Ok acc)
  = Ok (acc + length (listing fs folder_path)).
Proof.
  unfold os_path_exists, os_listdir, is_file, listing. intros Hfile.
  destruct (fs !! folder_path) as [[l|]|]; [|done|].
  - by rewrite bool_decide_eq_true_2 by eauto.
  - rewrite bool_decide_eq_false_2 by (by intros [? ?]). simpl.
    f_equal. lia.
Qed.

Lemma total_files_spec ds base_dir :
  directory_layout fs ds base_dir →
  total_files fs ds base_dir = Ok (listed fs ds base_dir).
Proof.
  unfold directory_layout, listed. intros Hlay.
  destruct ds; cbn -[os_path_join] in Hlay;
    rewrite !Forall_cons in Hlay; destruct_and!; unfold cell_path in *.
  - unfold total_files, for_norm_total_files.
    rewrite (for_each_sum splits _
               (λ split, list_sum (map (λ label, length (listing fs (os_path_join base_dir [split; label])))
                                       (Dict.keys labels)))
               (λ split, Forall (λ label, is_file fs (os_path_join base_dir [split; label]) = false)
                           (Dict.keys labels))).
    + f_equal. cbn -[os_path_join]. lia.
    + intros split acc Hsplit.
      eapply (for_each_sum _ _ (λ label, length (listing fs (os_path_join base_dir [split; label]))));
        [|exact Hsplit].
      intros label acc' Hl. by apply listdir_len_ok.
    + unfold splits. repeat constructor; assumption.
  - unfold total_files, release_in_wild_total_files.
    rewrite (for_each_sum (Dict.keys labels) _
               (λ label, length (listing fs (os_path_join base_dir [label])))
               (λ label, is_file fs (os_path_join base_dir [label]) = false)).
    + f_equal.
    + intros label acc' Hl. by apply listdir_len_ok.
    + repeat constructor; assumption.
Qed.

(** The cells of a dataset carry a label of the table. *)
Lemma cells_labels ds : Forall (λ c, c.2 ∈ Dict.keys labels) (cells ds).
Proof. destruct ds; repeat constructor; simpl; set_solver. Qed.

(** The loops over the cells, as one loop. *)
Lemma run_loops ds base_dir log :
  run np_mean librosa fs log_refuses ds base_dir log
  = (do! total_files := lift (total_files fs ds base_dir) in
     for_each_io (cells ds)
       (λ c st, process_folder np_mean librosa fs log_refuses c.1
                  (cell_path base_dir c) c.2 st)
       ([], tqdm_new total_files)) log.
Proof.
  destruct ds; unfold run, for_norm_run, release_in_wild_run, total_files, io_bind;
    [destruct (for_norm_total_files fs base_dir) as [k|]
    |destruct (release_in_wild_total_files fs base_dir) as [k|]];
    cbn -[os_path_join process_folder]; try done.
  all: unfold io_bind;
    repeat (destruct (process_folder _ _ _ _ _ _ _ _ _) as [[[? ?]|?] ?];
            cbn -[os_path_join process_folder]; try done).
Qed.

(** The batch function on a directory layout whose log takes the records
    of the failing entries: it returns, and its rows, its log lines and
    its progress counter are those of the entries. *)
Lemma run_spec ds base_dir log :
  directory_layout fs ds base_dir →
  accepts (entries fs ds base_dir) →
  ∃ rows bar log',
    run np_mean librosa fs log_refuses ds base_dir log = (Ok (rows, bar), log')
    ∧ extends (entries fs ds base_dir)
        ([], tqdm_new (listed fs ds base_dir)) log (rows, bar) log'.
Proof.
  intros Hlay Hacc. rewrite run_loops. unfold io_bind at 1, lift.
  rewrite (total_files_spec ds base_dir Hlay).
  unfold log_accepts, entries in Hacc.
  apply Forall_bind in Hacc.
  destruct (for_each_io_extends
    (λ c, folder_entries fs c (cell_path base_dir c))
    (λ c, is_file fs (cell_path base_dir c) = false
          ∧ c.2 ∈ Dict.keys labels
          ∧ accepts (folder_entries fs c (cell_path base_dir c)))
    (λ c st, process_folder np_mean librosa fs log_refuses c.1
               (cell_path base_dir c) c.2 st)
    (cells ds))
    with (st := (@nil (pydict (value F)), tqdm_new (listed fs ds base_dir)))
         (log := log)
    as ([rows bar] & log' & E & X).
  - intros [split label] st1 log1 (Hf & Hl & Ha).
    by apply process_folder_spec.
  - apply Forall_forall. intros c Hc. split_and!.
    + unfold directory_layout in Hlay. rewrite Forall_forall in Hlay. by apply Hlay.
    + pose proof (cells_labels ds) as Hlab.
      rewrite Forall_forall in Hlab. by apply Hlab.
    + rewrite Forall_forall in Hacc. by apply Hacc.
  - exists rows, bar, log'. by split.
Qed.

Lemma process_of_run ds base_dir log rows bar log' :
  run np_mean librosa fs log_refuses ds base_dir log = (Ok (rows, bar), log') →
  process np_mean librosa fs log_refuses ds base_dir log = (Ok rows, log').
Proof.
  intros E.
  destruct ds; unfold process, process_audio_files_for_norm,
    process_audio_files_release_in_wild, io_bind; unfold run in E;
    by rewrite E.
Qed.

(** *** The rows of the entries *)

Lemma entries_wf ds base_dir :
  Forall (λ e, entry_label e ∈ Dict.keys labels
               ∧ bool_decide (is_Some (entry_split e)) = has_split ds)
    (entries fs ds base_dir).
Proof.
  clear log_refuses. unfold entries. apply Forall_bind.
  assert (∀ c, c.2 ∈ Dict.keys labels →
               bool_decide (is_Some c.1) = has_split ds →
               Forall (λ e, entry_label e ∈ Dict.keys labels
                            ∧ bool_decide (is_Some (entry_split e)) = has_split ds)
                 (folder_entries fs c (cell_path base_dir c))) as Hcell.
  { intros c Hl Hs. unfold folder_entries. apply Forall_fmap.
    apply Forall_forall. intros file _. by split. }
  destruct ds; repeat constructor; apply Hcell; simpl; try done; set_solver.
Qed.

Lemma rows_length es :
  Forall (λ e, entry_label e ∈ Dict.keys labels) es →
  length (flat_map feature_rows es) = successes es.
Proof.
  unfold successes.
  induction 1 as [|e es Hl _ IH]; [done|].
  cbn [flat_map List.filter]. rewrite length_app, IH.
  generalize (List.filter (succeeded np_mean librosa) es). intros l.
  unfold feature_rows, succeeded.
  destruct (labels_get _ Hl) as [code ->].
  by destruct (extract_features_try np_mean librosa (entry_path e)).
Qed.

Lemma rows_keys sp es :
  Forall (λ e, bool_decide (is_Some (entry_split e)) = sp) es →
  Forall (λ r, Dict.keys r = row_keys sp) (flat_map feature_rows es).
Proof.
  induction 1 as [|e es Hs _ IH]; [constructor|].
  cbn [flat_map]. apply Forall_app. split; [|exact IH]. unfold feature_rows at 1.
  destruct (extract_features_try np_mean librosa (entry_path e)) as [d|] eqn:Htry;
    [|constructor].
  destruct (Dict.get (entry_label e) labels) as [code|]; [|constructor].
  destruct (extract_features_try_ok _ _ _ _ Htry) as (_ & _ & _ & _ & _ & Hk & _).
  constructor; [|constructor]. unfold feature_row.
  rewrite !keys_app, Hk. subst sp. by destruct (entry_split e).
Qed.

Lemma rows_none es :
  Forall (λ e, succeeded np_mean librosa e = false) es →
  flat_map feature_rows es = [].
Proof.
  induction 1 as [|e es He _ IH]; [done|].
  cbn [flat_map]. rewrite IH. unfold feature_rows, succeeded in *.
  by destruct (extract_features_try np_mean librosa (entry_path e)).
Qed.

End RunFacts.

(** ** Counting *)

Lemma count_folder_ok (fs : gmap string node) (folder_path : string) :
  is_file fs folder_path = false →
  count_folder fs folder_path = Ok (length (wav_files (listing fs folder_path))).
Proof.
  unfold count_folder, os_path_exists, os_listdir, is_file, listing.
  intros Hfile. destruct (fs !! folder_path) as [[l|]|]; [|done|].
  - by rewrite bool_decide_eq_true_2 by eauto.
  - by rewrite bool_decide_eq_false_2 by (by intros [? ?]).
Qed.

Lemma count_labels_loop_spec (fs : gmap string node) (base_dir : string)
    (dirs : list string) (counts : pydict nat) (total_files : nat) :
  Forall (λ label, is_file fs (os_path_join base_dir (dirs ++ [label])) = false)
    (Dict.keys labels) →
  let count label :=
    length (wav_files (listing fs (os_path_join base_dir (dirs ++ [label])))) in
  count_labels_loop fs base_dir dirs labels (counts, total_files)
  = Ok (fold_left (λ d label, Dict.set label (count label) d) (Dict.keys labels) counts,
        total_files + list_sum (map count (Dict.keys labels))).
Proof.
  intros Hlay count. unfold count_labels_loop.
  eapply (for_each_acc _ _ (λ label d, Dict.set label (count label) d) count);
    [|exact Hlay].
  intros label d acc Hl. simpl. by rewrite count_folder_ok.
Qed.

Lemma length_folder_entries (fs : gmap string node) (c : option string * string)
    (folder_path : string) :
  length (folder_entries fs c folder_path)
  = length (wav_files (listing fs folder_path)).
Proof. unfold folder_entries. apply length_fmap. Qed.

Lemma length_entries (fs : gmap string node) (ds : dataset) (base_dir : string) :
  length (entries fs ds base_dir)
  = list_sum (map (λ c, length (wav_files (listing fs (cell_path base_dir c))))
                (cells ds)).
Proof.
  unfold entries. induction (cells ds) as [|c cs IH]; [done|].
  by rewrite bind_cons, length_app, length_folder_entries, IH.
Qed.

(** The entries are among the directory entries that the batch function
    adds up for its progress bar. *)
Lemma entries_le_listed (fs : gmap string node) (ds : dataset)
    (base_dir : string) :
  length (entries fs ds base_dir) ≤ listed fs ds base_dir.
Proof.
  rewrite length_entries. unfold listed, wav_files.
  induction (cells ds) as [|c cs IH]; [done|].
  cbn [map list_sum foldr].
  pose proof (List.filter_length_le (λ f, endswith f wav)
                (listing fs (cell_path base_dir c))) as Hle.
  change (fold_right Nat.add 0) with list_sum. lia.
Qed.

(** ** A batch that returns ran on a directory layout *)

Lemma for_each_ok_Forall {A S : Type} (l : list A) (body : A → S → result S)
    (P : A → Prop) :
  (∀ x s s', body x s = Ok s' → P x) →
  ∀ s s', for_each l body s = Ok s' → Forall P l.
Proof.
  intros Hbody. induction l as [|x l IH]; intros s s' H; [constructor|].
  simpl in H. destruct (body x s) as [s1|] eqn:E; [|discriminate H].
  constructor; eauto.
Qed.

Lemma listdir_len_inv (fs : gmap string node) (folder_path : string)
    (acc r : nat) :
  (if os_path_exists fs folder_path
   then let! entries := os_listdir fs folder_path in Ok (acc + length entries)
   else Ok acc) = Ok r →
  is_file fs folder_path = false.
Proof.
  unfold os_path_exists, os_listdir, is_file.
  destruct (fs !! folder_path) as [[l|]|]; [done| |done].
  rewrite bool_decide_eq_true_2 by eauto. discriminate.
Qed.

Lemma total_files_ok_layout (fs : gmap string node) (ds : dataset)
    (base_dir : string) (t : nat) :
  total_files fs ds base_dir = Ok t → directory_layout fs ds base_dir.
Proof.
  unfold directory_layout. destruct ds; unfold total_files; intros H.
  - apply for_each_ok_Forall
      with (P := λ split, Forall (λ label, is_file fs (os_path_join base_dir [split; label]) = false)
                            (Dict.keys labels)) in H.
    + unfold splits, labels in H. cbn -[os_path_join] in H |- *.
      rewrite !Forall_cons in H. destruct_and!. repeat constructor; assumption.
    + intros split s s' Hs.
      apply for_each_ok_Forall
        with (P := λ label, is_file fs (os_path_join base_dir [split; label]) = false) in Hs;
        [done|].
      intros label a a'. apply listdir_len_inv.
  - apply for_each_ok_Forall
      with (P := λ label, is_file fs (os_path_join base_dir [label]) = false) in H.
    + unfold splits, labels in H. cbn -[os_path_join] in H |- *.
      rewrite !Forall_cons in H. destruct_and!. repeat constructor; assumption.
    + intros label a a'. apply listdir_len_inv.
Qed.

Lemma process_ok_layout {F : Type} (np_mean : list F → F) (librosa : Librosa F)
    (fs : gmap string node) (log_refuses : string → option (exn * list string))
    (ds : dataset) (base_dir : string)
    (log log' : list string) (rows : list (pydict (value F))) :
  process np_mean librosa fs log_refuses ds base_dir log = (Ok rows, log') →
  directory_layout fs ds base_dir.
Proof.
  intros H. destruct (total_files fs ds base_dir) as [t|e] eqn:Ht.
  { by eapply total_files_ok_layout. }
  exfalso. destruct ds; unfold total_files in Ht;
    unfold process, process_audio_files_for_norm,
      process_audio_files_release_in_wild, for_norm_run, release_in_wild_run,
      io_bind, lift in H;
    rewrite Ht in H; discriminate H.
Qed.

(** ** A batch that returns wrote every record *)

Lemma for_each_io_ok_Forall {A S : Type} (l : list A) (body : A → S → io S)
    (P : A → Prop) :
  (∀ x s log s' log', body x s log = (Ok s', log') → P x) →
  ∀ s log s' log', for_each_io l body s log = (Ok s', log') → Forall P l.
Proof.
  intros Hbody. induction l as [|x l IH]; intros s log s' log' H; [constructor|].
  simpl in H. unfold io_bind in H.
  destruct (body x s log) as [[s1|e] log1] eqn:E; [|discriminate H].
  constructor; eauto.
Qed.

Section ReturnFacts.
Context {F : Type}.
Variable np_mean : list F → F.
Variable librosa : Librosa F.
Variable fs : gmap string node.
Variable log_refuses : string → option (exn * list string).

Lemma process_folder_ok_accepts split label folder_path st log st' log' :
  label ∈ Dict.keys labels →
  process_folder np_mean librosa fs log_refuses split folder_path label st log
    = (Ok st', log') →
  log_accepts np_mean librosa log_refuses
    (folder_entries fs (split, label) folder_path).
Proof.
  intros Hlabel. unfold process_folder, os_path_exists, os_listdir, folder_entries,
    listing.
  destruct (fs !! folder_path) as [[l|]|].
  - rewrite bool_decide_eq_true_2 by eauto. cbn [negb fst snd].
    unfold io_bind at 1, lift. intros H.
    apply for_each_io_ok_Forall
      with (P := λ file, log_accepts np_mean librosa log_refuses
                           (if endswith file wav
                            then [Entry split label folder_path file] else [])) in H.
    + rewrite <- wav_files_bind. unfold log_accepts. by apply Forall_bind.
    + intros file [rows bar] log1 s1 log1' E.
      rewrite process_file_cases in E by done.
      destruct (endswith file wav); [|constructor].
      constructor; [|constructor]. intros x Hx. rewrite Hx in E.
      by destruct (log_refuses _) as [[e' partial]|].
  - rewrite bool_decide_eq_true_2 by eauto. discriminate.
  - intros _. constructor.
Qed.

Lemma run_ok_accepts ds base_dir log rows bar log' :
  run np_mean librosa fs log_refuses ds base_dir log = (Ok (rows, bar), log') →
  log_accepts np_mean librosa log_refuses (entries fs ds base_dir).
Proof.
  rewrite run_loops. unfold io_bind at 1, lift.
  destruct (total_files fs ds base_dir) as [k|]; [|discriminate].
  intros H.
  apply for_each_io_ok_Forall
    with (P := λ c, c.2 ∈ Dict.keys labels →
                    log_accepts np_mean librosa log_refuses
                      (folder_entries fs c (cell_path base_dir c))) in H.
  - unfold log_accepts, entries. apply Forall_bind.
    pose proof (cells_labels ds) as Hlab.
    rewrite Forall_forall in H, Hlab |- *. intros c Hc. by apply H, Hlab.
  - intros [split label] s1 log1 s1' log1' E Hl.
    by eapply process_folder_ok_accepts.
Qed.

Lemma process_ok_run ds base_dir log rows log' :
  process np_mean librosa fs log_refuses ds base_dir log = (Ok rows, log') →
  ∃ bar, run np_mean librosa fs log_refuses ds base_dir log = (Ok (rows, bar), log').
Proof.
  destruct ds; unfold process, process_audio_files_for_norm,
    process_audio_files_release_in_wild, run, io_bind;
    [destruct (for_norm_run _ _ _ _ _ _) as [[[rows' bar]|e] log1]
    |destruct (release_in_wild_run _ _ _ _ _ _) as [[[rows' bar]|e] log1]];
    intros H; try discriminate H; injection H as -> ->; by exists bar.
Qed.
End ReturnFacts.

(** ** The table built from uniform rows *)

Lemma get_keys_values {V : Type} (d : pydict V) :
  NoDup (Dict.keys d) →
  map (λ c, Dict.get c d) (Dict.keys d) = map Some (Dict.values d).
Proof.
  induction d as [|[k v] d IH]; [done|].
  simpl. rewrite NoDup_cons. intros [Hk Hd]. rewrite String.eqb_refl. f_equal.
  rewrite <- IH by done. apply map_ext_in. intros c Hc.
  destruct (String.eqb c k) eqn:E; [|done].
  apply String.eqb_eq in E as ->. by apply list_elem_of_In in Hc.
Qed.

Lemma row_keys_NoDup (with_split : bool) : NoDup (row_keys with_split).
Proof. destruct with_split; by apply (bool_decide_unpack _); vm_compute. Qed.

Lemma columns_uniform {F : Type} (with_split : bool)
    (rows : list (pydict (value F))) :
  rows ≠ [] →
  Forall (λ r, Dict.keys r = row_keys with_split) rows →
  columns (pd_DataFrame rows) = row_keys with_split.
Proof.
  intros Hne Hrows. unfold pd_DataFrame. simpl.
  destruct Hrows as [|r rows Hr Hrows]; [done|]. simpl. rewrite Hr.
  assert (fold_left add_column (row_keys with_split) [] = row_keys with_split)
    as -> by (by destruct with_split; vm_compute).
  clear Hne. induction Hrows as [|r' rows Hr' _ IH]; [done|].
  simpl. rewrite Hr'.
  assert (fold_left add_column (row_keys with_split) (row_keys with_split)
          = row_keys with_split)
    as -> by (by destruct with_split; vm_compute).
  exact IH.
Qed.

Lemma records_uniform {F : Type} (with_split : bool)
    (rows : list (pydict (value F))) :
  rows ≠ [] →
  Forall (λ r, Dict.keys r = row_keys with_split) rows →
  records (pd_DataFrame rows) = map (λ r, map Some (Dict.values r)) rows.
Proof.
  intros Hne Hrows.
  pose proof (columns_uniform with_split rows Hne Hrows) as Hcols.
  unfold pd_DataFrame in *. simpl in *. rewrite Hcols.
  apply map_ext_in. intros r Hr.
  apply list_elem_of_In in Hr. eapply Forall_forall in Hrows; [|exact Hr].
  rewrite <- Hrows. apply get_keys_values. rewrite Hrows.
  apply row_keys_NoDup.
Qed.

(** ** Reading back what was written *)

Lemma append_nil_r (s : string) : s +:+ EmptyString = s.
Proof.
  induction s as [|c s IH]; [done|].
  change (String c (s +:+ EmptyString) = String c s). by rewrite IH.
Qed.

Lemma append_assoc (a b c : string) : (a +:+ b) +:+ c = a +:+ (b +:+ c).
Proof.
  induction a as [|x a IH]; [done|].
  change (String x ((a +:+ b) +:+ c) = String x (a +:+ (b +:+ c))).
  by rewrite IH.
Qed.

Lemma concat_empty_cons (x : string) (l : list string) :
  String.concat EmptyString (x :: l) = x +:+ String.concat EmptyString l.
Proof. destruct l as [|y l]; [symmetry; apply append_nil_r|done]. Qed.

Lemma csv_special_cons (c : ascii) (s : string) :
  csv_special (String c s) = false →
  Ascii.eqb c comma = false ∧ Ascii.eqb c dquote = false
  ∧ Ascii.eqb c line_feed = false ∧ csv_special s = false.
Proof.
  cbn [csv_special]. rewrite !orb_false_iff. unfold comma, line_feed. tauto.
Qed.

(** A field without a special character is read as it stands. *)
Lemma read_plain (s : string) :
  ∀ (acc : string) (record : list string) (rest : string),
  csv_special s = false →
  csv_read_from InPlain acc record (s +:+ rest)
  = csv_read_from InPlain (acc +:+ s) record rest.
Proof.
  induction s as [|c s IH]; intros acc record rest Hs.
  - by rewrite append_nil_r.
  - apply csv_special_cons in Hs as (Hc & Hq & Hl & Hs).
    change (String c s +:+ rest) with (String c (s +:+ rest)).
    cbn [csv_read_from]. rewrite Hc, Hl, IH by done.
    by rewrite append_assoc.
Qed.

(** Inside quotes every character is read, a doubled quote as one. *)
Lemma read_quoted (s : string) :
  ∀ (acc : string) (record : list string) (rest : string),
  csv_read_from InQuoted acc record (csv_double s +:+ String dquote rest)
  = csv_read_from AfterQuote (acc +:+ s) record rest.
Proof.
  induction s as [|c s IH]; intros acc record rest.
  - rewrite append_nil_r. done.
  - cbn [csv_double]. destruct (Ascii.eqb c dquote) eqn:Hq.
    + apply Ascii.eqb_eq in Hq as ->.
      change (String dquote (String dquote (csv_double s)) +:+ String dquote rest)
        with (String dquote (String dquote (csv_double s +:+ String dquote rest))).
      cbn [csv_read_from]. rewrite Ascii.eqb_refl, IH.
      by rewrite append_assoc.
    + change (String c (csv_double s) +:+ String dquote rest)
        with (String c (csv_double s +:+ String dquote rest)).
      cbn [csv_read_from]. rewrite Hq, IH.
      by rewrite append_assoc.
Qed.

(** A written field, from the start of a field. *)
Lemma read_field (st : reading) (s : string) (record : list string)
    (rest : string) :
  st = AtRecord ∨ st = AtField →
  s ≠ EmptyString →
  csv_read_from st EmptyString record (csv_field s +:+ rest)
  = csv_read_from (if csv_special s then AfterQuote else InPlain) s record rest.
Proof.
  intros Hst Hne. unfold csv_field. destruct (csv_special s) eqn:Hs.
  - change (String dquote (csv_double s +:+ String dquote EmptyString) +:+ rest)
      with (String dquote ((csv_double s +:+ String dquote EmptyString) +:+ rest)).
    rewrite append_assoc.
    change (String dquote EmptyString +:+ rest) with (String dquote rest).
    destruct Hst as [-> | ->]; cbn [csv_read_from];
      change (Ascii.eqb dquote line_feed) with false; cbn iota;
      rewrite Ascii.eqb_refl, read_quoted; done.
  - destruct s as [|c s]; [done|].
    apply csv_special_cons in Hs as (Hc & Hq & Hl & Hs).
    change (String c s +:+ rest) with (String c (s +:+ rest)).
    destruct Hst as [-> | ->]; cbn [csv_read_from];
      rewrite Hc, Hq, Hl, read_plain by done; done.
Qed.

Lemma read_field_comma (st : reading) (s : string) (record : list string)
    (rest : string) :
  st = AtRecord ∨ st = AtField →
  csv_read_from st EmptyString record (csv_field s +:+ String comma rest)
  = csv_read_from AtField EmptyString (record ++ [s]) rest.
Proof.
  intros Hst. destruct (decide (s = EmptyString)) as [->|Hne].
  - by destruct Hst as [-> | ->].
  - rewrite read_field by done.
    destruct (csv_special s); cbn [csv_read_from];
      change (Ascii.eqb comma dquote) with false; cbn iota;
      by rewrite Ascii.eqb_refl.
Qed.

Lemma read_field_end (st : reading) (s : string) (record : list string)
    (rest : string) :
  st = AtField ∨ (st = AtRecord ∧ s ≠ EmptyString) →
  csv_read_from st EmptyString record (csv_field s +:+ String line_feed rest)
  = (record ++ [s]) :: csv_read_from AtRecord EmptyString [] rest.
Proof.
  intros Hst. destruct (decide (s = EmptyString)) as [->|Hne].
  - by destruct Hst as [-> | [_ ?]].
  - rewrite read_field by (done || destruct Hst as [-> | [-> _]]; auto).
    destruct (csv_special s); cbn [csv_read_from];
      change (Ascii.eqb line_feed dquote) with false;
      change (Ascii.eqb line_feed comma) with false; cbn iota;
      by rewrite Ascii.eqb_refl.
Qed.

Lemma read_fields (fields : list string) :
  ∀ (f : string) (st : reading) (record : list string) (rest : string),
  st = AtField ∨ (st = AtRecord ∧ (fields ≠ [] ∨ f ≠ EmptyString)) →
  csv_read_from st EmptyString record
    (String.concat "," (map csv_field (f :: fields)) +:+ String line_feed rest)
  = (record ++ f :: fields) :: csv_read_from AtRecord EmptyString [] rest.
Proof.
  induction fields as [|g fields IH]; intros f st record rest Hst.
  - apply read_field_end. destruct Hst as [->|[-> [?|?]]]; [by left|done|by right].
  - change (String.concat "," (map csv_field (f :: g :: fields)))
      with (csv_field f +:+ "," +:+ String.concat "," (map csv_field (g :: fields))).
    rewrite !append_assoc.
    change ("," +:+ String.concat "," (map csv_field (g :: fields))
            +:+ String line_feed rest)
      with (String comma (String.concat "," (map csv_field (g :: fields))
                          +:+ String line_feed rest)).
    rewrite read_field_comma by (destruct Hst as [->|[-> _]]; auto).
    rewrite IH by auto. by rewrite <- app_assoc.
Qed.

(** A written record is read back as its fields. *)
Lemma read_writerow (fields : list string) (rest : string) :
  csv_read_from AtRecord EmptyString [] (writerow fields +:+ rest)
  = fields :: csv_read_from AtRecord EmptyString [] rest.
Proof.
  destruct fields as [|f fields]; [done|].
  destruct (decide (f = EmptyString ∧ fields = [])) as [[-> ->]|Hne].
  { done. }
  assert (writerow (f :: fields)
          = String.concat "," (map csv_field (f :: fields)) +:+ linesep) as ->.
  { destruct f as [|c f]; [|done]. destruct fields; [|done]. by destruct Hne. }
  rewrite append_assoc.
  change (linesep +:+ rest) with (String line_feed rest).
  rewrite read_fields; [done|]. right. split; [done|].
  destruct fields; [right|left]; [|done]. intros ->. by apply Hne.
Qed.

Lemma read_records (records : list (list string)) :
  csv_read_from AtRecord EmptyString []
    (String.concat EmptyString (map writerow records))
  = records.
Proof.
  induction records as [|r records IH]; [done|].
  cbn [map]. rewrite concat_empty_cons, read_writerow. by rewrite IH.
Qed.

(** The text of a table is read back as its column names followed by
    the texts of its cells. *)
Lemma read_csv_text {F : Type} (float_repr : F → string) (df : DataFrame F) :
  csv_read (csv_text float_repr df)
  = columns df :: map (map (cell_text float_repr)) (records df).
Proof.
  unfold csv_read, csv_text. rewrite read_writerow.
  rewrite <- (map_map (map (cell_text float_repr)) writerow).
  by rewrite read_records.
Qed.

(** ** The code on small inputs *)

Example endswith_wav :
  endswith "a.wav" wav = true ∧ endswith ".wav" wav = true
  ∧ endswith "wav" wav = false ∧ endswith "a.WAV" wav = false
  ∧ endswith "a.wav.txt" wav = false.
Proof. by vm_compute. Qed.

Example join_paths :
  os_path_join "d" ["training"; "fake"] = "d/training/fake"
  ∧ os_path_join "d/" ["fake"] = "d/fake"
  ∧ os_path_join "d" ["/abs"; "x.wav"] = "/abs/x.wav"
  ∧ os_path_join EmptyString ["fake"] = "fake".
Proof. by vm_compute. Qed.

(** The split dataset with a corrupt file: two rows, one log line that
    names the corrupt file, three files counted. *)
Example split_scenario :
  ∃ rows bar features counts,
    run demo_mean demo_lib demo_fs accepts_all for_norm "d" []
    = (Ok (rows, bar),
       ["Error processing d/training/fake/b.wav: Error opening: Format not recognised."
        +:+ linesep])
    ∧ map (λ r, (Dict.get "filename" r, Dict.get "split" r,
                 Dict.get "label" r, Dict.get "LABEL" r)) rows
      = [(Some (VStr "a.wav"), Some (VStr "training"), Some (VStr "fake"), Some (VInt 0));
         (Some (VStr "c.wav"), Some (VStr "training"), Some (VStr "real"), Some (VInt 1))]
    ∧ extract_features_try demo_mean demo_lib "d/training/fake/a.wav" = Ok features
    ∧ rows !! 0 = Some (feature_row (Entry (Some "training") "fake" "d/training/fake" "a.wav")
                          0 features)
    ∧ count_files_in_dataset demo_fs "d" (Some splits) labels = Ok (counts, 3).
Proof. eexists _, _, _, _. by vm_compute. Qed.

(** The flat dataset with an empty [fake] folder: one row without a
    [split] key, and the counts [fake: 0], [real: 1], total 1. *)
Example flat_scenario :
  ∃ rows bar,
    run demo_mean demo_lib wild_fs accepts_all release_in_the_wild "w" []
    = (Ok (rows, bar), [])
    ∧ map (λ r, (Dict.get "filename" r, Dict.get "split" r,
                 Dict.get "label" r, Dict.get "LABEL" r)) rows
      = [(Some (VStr "x.wav"), None, Some (VStr "real"), Some (VInt 1))]
    ∧ count_files_in_dataset wild_fs "w" None labels
      = Ok (LabelCounts [("fake", 0); ("real", 1)], 1).
Proof. eexists _, _. by vm_compute. Qed.

(** A field with a comma, a quote and a line feed is written in quotes
    and read back as it was. *)
Example quoted_field :
  writerow ["a,b"; "say " +:+ String dquote "hi" +:+ String dquote EmptyString; "x"]
  = String dquote "a,b" +:+ String dquote ","
    +:+ String dquote "say " +:+ String dquote (String dquote "hi")
    +:+ String dquote (String dquote (String dquote ",x")) +:+ linesep.
Proof. by vm_compute. Qed.

(** ** The claims *)

(** C6.  On every directory layout, also one where split/label
    directories are absent, [count_files_in_dataset] returns: its grand
    total is the sum of the counts it reports per cell, every cell is
    reported with the number of its [.wav] files and an absent cell with
    0, and the total is the number of entries of the traversal, which is
    where the progress counter of the batch function stands at the end
    of a run whose failures the log takes. *)
Theorem count_total_is_sum_and_traversal (fs : gmap string node)
    (ds : dataset) (base_dir : string) :
  directory_layout fs ds base_dir →
  ∃ counts total_files,
    count_files_in_dataset fs base_dir (dataset_splits ds) labels
    = Ok (counts, total_files)
    ∧ total_files = counts_sum counts
    ∧ Forall (λ c, count_at counts c
                   = Some (length (wav_files (listing fs (cell_path base_dir c)))))
        (cells ds)
    ∧ Forall (λ c, fs !! cell_path base_dir c = None → count_at counts c = Some 0)
        (cells ds)
    ∧ total_files = length (entries fs ds base_dir)
    ∧ ∀ (F : Type) (np_mean : list F → F) (librosa : Librosa F)
        (log_refuses : string → option (exn * list string)) (log : list string),
        log_accepts np_mean librosa log_refuses (entries fs ds base_dir) →
        ∃ rows bar log',
          run np_mean librosa fs log_refuses ds base_dir log = (Ok (rows, bar), log')
          ∧ n bar = total_files.
Proof.
  intros Hlay.
  assert (Hcells : Forall (λ c, is_file fs (cell_path base_dir c) = false) (cells ds))
    by exact Hlay.
  assert (Hrun : ∀ (F : Type) (np_mean : list F → F) (librosa : Librosa F)
                   log_refuses log,
             log_accepts np_mean librosa log_refuses (entries fs ds base_dir) →
             ∃ rows bar log',
               run np_mean librosa fs log_refuses ds base_dir log
               = (Ok (rows, bar), log')
               ∧ n bar = length (entries fs ds base_dir)).
  { intros F np_mean librosa log_refuses log Hacc.
    destruct (run_spec np_mean librosa fs log_refuses ds base_dir log Hlay Hacc)
      as (rows & bar & log' & E & X).
    exists rows, bar, log'. split; [exact E|]. by destruct X. }
  pose proof (length_entries fs ds base_dir) as Hlen.
  assert (Habsent : ∀ p, fs !! p = None → length (wav_files (listing fs p)) = 0).
  { intros p Hp. unfold listing. by rewrite Hp. }
  destruct ds; cbn -[os_path_join] in Hcells;
    rewrite !Forall_cons in Hcells; destruct_and!; unfold cell_path in *.
  - unfold count_files_in_dataset, dataset_splits, splits at 1.
    rewrite (for_each_acc splits _
               (λ split d,
                  Dict.set split
                    (fold_left
                       (λ d label,
                          Dict.set label
                            (length (wav_files (listing fs (os_path_join base_dir ([split] ++ [label])))))
                            d)
                       (Dict.keys labels) Dict.empty) d)
               (λ split,
                  list_sum (map (λ label, length (wav_files (listing fs (os_path_join base_dir ([split] ++ [label])))))
                              (Dict.keys labels)))
               (λ split, Forall (λ label, is_file fs (os_path_join base_dir ([split] ++ [label])) = false)
                           (Dict.keys labels))).
    + eexists _, _. split; [reflexivity|].
      cbn -[os_path_join wav_files listing entries] in Hlen |- *.
      split; [reflexivity|]. split; [repeat constructor|].
      split; [repeat constructor; intros Hp; by rewrite (Habsent _ Hp)|].
      split; [lia|].
      intros F np_mean librosa log_refuses log Hacc.
      destruct (Hrun F np_mean librosa log_refuses log Hacc)
        as (rows & bar & log' & E & Hbar).
      exists rows, bar, log'. split; [exact E|]. lia.
    + intros split d acc Hsplit.
      by rewrite (count_labels_loop_spec fs base_dir [split] Dict.empty acc Hsplit).
    + unfold splits. repeat constructor; assumption.
  - unfold count_files_in_dataset, dataset_splits.
    rewrite (count_labels_loop_spec fs base_dir [] Dict.empty 0)
      by (repeat constructor; assumption).
    eexists _, _. split; [reflexivity|].
    cbn -[os_path_join wav_files listing entries] in Hlen |- *.
    split; [reflexivity|]. split; [repeat constructor|].
    split; [repeat constructor; intros Hp; by rewrite (Habsent _ Hp)|].
    split; [lia|].
    intros F np_mean librosa log_refuses log Hacc.
    destruct (Hrun F np_mean librosa log_refuses log Hacc)
      as (rows & bar & log' & E & Hbar).
    exists rows, bar, log'. split; [exact E|]. lia.
Qed.

Lemma demo_layout (ds : dataset) : directory_layout demo_fs ds "d".
Proof. destruct ds; repeat constructor. Qed.

Lemma count_total_is_sum_and_traversal_witness :
  ∃ counts total_files,
    count_files_in_dataset demo_fs "d" (dataset_splits for_norm) labels
    = Ok (counts, total_files)
    ∧ total_files = counts_sum counts.
Proof.
  destruct (count_total_is_sum_and_traversal demo_fs for_norm "d"
              (demo_layout for_norm))
    as (counts & total_files & E & Hsum & _).
  exists counts, total_files. by split.
Defined.




(** C2.  Whenever [extract_features] returns a vector, its keys are
    exactly the 26 canonical keys, each once and in the canonical order,
    and for every [i] from 1 to 20 the key [mfcc<i>] stands at position
    [5 + i] and holds the mean of row [i - 1] of the matrix of cepstral
    coefficients that [librosa] returned for the loaded signal. *)
Theorem extract_features_canonical_vector {F : Type} (np_mean : list F → F)
    (librosa : Librosa F) (log_refuses : string → option (exn * list string))
    (file_path : string) (log log' : list string)
    (features : pydict (value F)) :
  extract_features np_mean librosa log_refuses file_path log
    = (Ok (Some features), log') →
  Dict.keys features = canonical_keys
  ∧ length (Dict.keys features) = 26
  ∧ NoDup (Dict.keys features)
  ∧ ∃ y sr mfccs,
      load librosa file_path = Ok (y, sr)
      ∧ mfcc librosa y sr 20 = Ok mfccs
      ∧ ∀ i, 1 ≤ i ≤ 20 →
          Dict.keys features !! (5 + i) = Some (mfcc_key i)
          ∧ ∃ coefficient,
              mfccs !! (i - 1) = Some coefficient
              ∧ Dict.get (mfcc_key i) features = Some (VFloat (np_mean coefficient)).
Proof.
  rewrite extract_features_cases. intros H.
  destruct (extract_features_try np_mean librosa file_path) as [d|e] eqn:Htry.
  2: { destruct (log_refuses _) as [[e' partial]|]; discriminate H. }
  injection H as -> ->.
  destruct (extract_features_try_ok _ _ _ _ Htry) as (y & sr & m & Hl & Hm & Hk & Hv).
  rewrite Hk. split; [done|]. split; [done|].
  split; [by apply (bool_decide_unpack _); vm_compute|].
  exists y, sr, m. split; [done|]. split; [done|].
  intros i Hi. split; [|by apply Hv].
  do 21 (destruct i as [|i]; [try lia; reflexivity|]). lia.
Qed.

Lemma extract_features_canonical_vector_witness :
  ∃ features,
    extract_features demo_mean demo_lib accepts_all "d/training/fake/a.wav" []
    = (Ok (Some features), [])
    ∧ Dict.keys features = canonical_keys
    ∧ Dict.get "mfcc3" features = Some (VFloat 3%Z).
Proof.
  eexists. split; [reflexivity|].
  destruct (extract_features_canonical_vector demo_mean demo_lib accepts_all
              "d/training/fake/a.wav" [] [] _ eq_refl)
    as (Hkeys & _).
  split; [exact Hkeys|reflexivity].
Defined.

(** C5, as the code has it.  On every directory layout, whatever
    [librosa] does on each file, and when the log takes the record of
    every failing entry, the batch function returns: every entry of the
    traversal was attempted (the progress counter ends at their number),
    every failing entry left its record in the error log, the text
    [Error processing <path>: <message>] and a line feed, in the order
    of the traversal and nothing else was written, and the rows returned
    are the rows of the entries that succeeded, in that order. *)
Theorem batch_completes_and_logs_failures {F : Type} (np_mean : list F → F)
    (librosa : Librosa F) (fs : gmap string node)
    (log_refuses : string → option (exn * list string)) (ds : dataset)
    (base_dir : string) (log : list string) :
  directory_layout fs ds base_dir →
  let es := entries fs ds base_dir in
  let record (e : entry) (x : exn) :=
    "Error processing " +:+ entry_path e +:+ ": " +:+ exn_msg x
    +:+ String "010"%char EmptyString in
  Forall (λ e, ∀ x, extract_features_try np_mean librosa (entry_path e) = Raise x →
                    log_refuses (record e x) = None) es →
  let records :=
    flat_map (λ e, match extract_features_try np_mean librosa (entry_path e) with
                   | Ok _ => []
                   | Raise x => [record e x]
                   end) es in
  ∃ rows bar,
    run np_mean librosa fs log_refuses ds base_dir log
    = (Ok (rows, bar), log ++ records)
    ∧ process np_mean librosa fs log_refuses ds base_dir log
      = (Ok rows, log ++ records)
    ∧ rows = flat_map (feature_rows np_mean librosa) es
    ∧ n bar = length es
    ∧ length rows = successes np_mean librosa es
    ∧ length rows + length records = length es.
Proof.
  intros Hlay es record Hacc records.
  destruct (run_spec np_mean librosa fs log_refuses ds base_dir log Hlay Hacc)
    as (rows & bar & log' & E & [Hrows Hlog _ Hn]).
  fold es in Hrows, Hlog, Hn. simpl in Hrows, Hn. subst rows log'.
  change (failure_lines np_mean librosa es) with records in E |- *.
  eexists _, bar.
  split; [exact E|]. split; [by apply process_of_run with bar|].
  split; [done|]. split; [exact Hn|].
  assert (length (flat_map (feature_rows np_mean librosa) es)
          = successes np_mean librosa es) as Hlen.
  { apply rows_length. eapply Forall_impl; [apply entries_wf|]. by intros e [? _]. }
  split; [exact Hlen|].
  rewrite Hlen. pose proof (failures_successes np_mean librosa es) as Hfs.
  change (failure_lines np_mean librosa es) with records in Hfs. lia.
Qed.

Lemma batch_completes_and_logs_failures_witness :
  ∃ rows bar,
    run demo_mean demo_lib demo_fs accepts_all for_norm "d" []
    = (Ok (rows, bar),
       ["Error processing d/training/fake/b.wav: Error opening: Format not recognised."
        +:+ String "010"%char EmptyString])
    ∧ n bar = 3 ∧ length rows = 2.
Proof.
  destruct (batch_completes_and_logs_failures demo_mean demo_lib demo_fs
              accepts_all for_norm "d" [] (demo_layout for_norm))
    as (rows & bar & E & _ & _ & Hn & Hlen & _).
  - apply Forall_forall. intros e _ x _. reflexivity.
  - exists rows, bar. split; [exact E|]. split; [exact Hn|exact Hlen].
Defined.

(** C5, where the unconditional statement fails: when the error log cannot be
    opened, the first file that fails to load ends the batch.  On the
    small data set the [PermissionError] of the handler leaves the batch
    function at [b.wav]: no rows are returned, nothing is recorded, and
    [c.wav], which would load, is never attempted. *)
Lemma locked_log_aborts_batch :
  directory_layout demo_fs for_norm "d"
  ∧ process demo_mean demo_lib demo_fs locked_log for_norm "d" []
    = (Raise (Exn "PermissionError"
                "[Errno 13] Permission denied: 'error_log.txt'"),
       [])
  ∧ is_ok (extract_features_try demo_mean demo_lib "d/training/real/c.wav") = true.
Proof. split; [apply demo_layout|by vm_compute]. Qed.

(** C7.  The total the batch function precomputes for its progress bar
    counts every directory entry, the counting function only the [.wav]
    files: on the small data set, whose [training/fake] folder also holds
    a text file, the bar is created with a total of 4 while the counting
    function reports 3 and the bar ends at 3 of 4. *)
Theorem precomputed_total_counts_every_entry :
  total_files demo_fs for_norm "d" = Ok 4
  ∧ (∃ counts,
       count_files_in_dataset demo_fs "d" (dataset_splits for_norm) labels
       = Ok (counts, 3))
  ∧ (∃ rows log',
       run demo_mean demo_lib demo_fs accepts_all for_norm "d" []
       = (Ok (rows, Tqdm 4 3), log')).
Proof.
  split; [reflexivity|].
  split; [eexists|eexists _, _]; vm_compute; reflexivity.
Qed.




(** C10.  When every entry of the traversal fails (and the log takes
    their records), the batch function returns no row, and the export
    still writes the file: the table built from no row has no column and
    no record, and the file holds only the line terminator of the empty
    header, so no column name at all. *)
Theorem export_of_no_rows_has_no_header {F : Type} (np_mean : list F → F)
    (librosa : Librosa F) (float_repr : F → string) (fs : gmap string node)
    (log_refuses : string → option (exn * list string))
    (ds : dataset) (base_dir : string) (log : list string)
    (files : gmap string string) :
  directory_layout fs ds base_dir →
  log_accepts np_mean librosa log_refuses (entries fs ds base_dir) →
  Forall (λ e, succeeded np_mean librosa e = false) (entries fs ds base_dir) →
  ∃ rows log',
    process np_mean librosa fs log_refuses ds base_dir log = (Ok rows, log')
    ∧ rows = []
    ∧ columns (pd_DataFrame rows) = []
    ∧ records (pd_DataFrame rows) = []
    ∧ export float_repr rows (csv_name ds) files
        !! os_path_join processed_output_dir [csv_name ds]
      = Some linesep.
Proof.
  intros Hlay Hacc Hfail.
  destruct (run_spec np_mean librosa fs log_refuses ds base_dir log Hlay Hacc)
    as (rows & bar & log' & E & [Hrows _ _ _]).
  simpl in Hrows. rewrite (rows_none _ _ _ Hfail) in Hrows. subst rows.
  exists [], log'. split; [by apply process_of_run with bar|].
  split; [done|]. split; [done|]. split; [done|].
  unfold export, to_csv. by rewrite lookup_insert_eq.
Qed.

Lemma export_of_no_rows_has_no_header_witness :
  ∃ rows log',
    process demo_mean corrupt_lib demo_fs accepts_all for_norm "d" [] = (Ok rows, log')
    ∧ rows = []
    ∧ export demo_repr rows (csv_name for_norm) ∅
        !! "Processed_Features/for_norm_features.csv"
      = Some linesep.
Proof.
  destruct (export_of_no_rows_has_no_header demo_mean corrupt_lib demo_repr
              demo_fs accepts_all for_norm "d" [] ∅ (demo_layout for_norm))
    as (rows & log' & E & Hrows & _ & _ & Hfile).
  - apply Forall_forall. intros e _ x _. reflexivity.
  - repeat constructor.
  - exists rows, log'. split; [exact E|]. split; [exact Hrows|exact Hfile].
Defined.

(** ** Further properties of the counting function *)

Lemma key_in_spec (k : string) (ks : list string) :
  key_in k ks = true ↔ k ∈ ks.
Proof.
  unfold key_in. rewrite existsb_exists. split.
  - intros (k' & Hin & Heq). apply String.eqb_eq in Heq as ->.
    by apply list_elem_of_In.
  - intros Hin. exists k. split; [by apply list_elem_of_In|apply String.eqb_refl].
Qed.

Lemma key_in_false (k : string) (ks : list string) :
  k ∉ ks → key_in k ks = false.
Proof.
  intros Hk. destruct (key_in k ks) eqn:E; [|done].
  by apply key_in_spec in E.
Qed.

(** Assigning distinct new keys one after the other appends them. *)
Lemma fold_set_fresh {V : Type} (f : string → V) (ks : list string)
    (d : pydict V) :
  NoDup (Dict.keys d ++ ks) →
  fold_left (λ d k, Dict.set k (f k) d) ks d = d ++ map (λ k, (k, f k)) ks.
Proof.
  revert d. induction ks as [|k ks IH]; intros d Hnd; simpl.
  - by rewrite app_nil_r.
  - apply NoDup_app in Hnd as (Hd & Hdisj & Hks).
    apply NoDup_cons in Hks as [Hk Hks].
    rewrite set_fresh.
    + rewrite IH; [by rewrite <- app_assoc|].
      rewrite keys_app. simpl. rewrite <- app_assoc. simpl.
      apply NoDup_app. split; [done|]. split; [|by apply NoDup_cons].
      intros x Hx. by apply Hdisj.
    + apply key_in_false. intros Hin. apply (Hdisj k Hin). by left.
Qed.

Lemma get_tabulated {V : Type} (f : string → V) (ks : list string) (k : string) :
  k ∈ ks → Dict.get k (map (λ k, (k, f k)) ks) = Some (f k).
Proof.
  induction ks as [|k' ks IH]; intros Hk; [by apply elem_of_nil in Hk|].
  simpl. destruct (String.eqb k k') eqn:E.
  - by apply String.eqb_eq in E as ->.
  - apply IH. apply elem_of_cons in Hk as [->|Hk]; [|done].
    by rewrite String.eqb_refl in E.
Qed.

Lemma list_sum_bind {A B : Type} (g : B → nat) (h : A → list B) (l : list A) :
  list_sum (map g (l ≫= h)) = list_sum (map (λ x, list_sum (map g (h x))) l).
Proof.
  induction l as [|x l IH]; [done|].
  rewrite bind_cons, map_app, list_sum_app, IH. done.
Qed.

(** The inner loop for any labels. *)
Lemma count_labels_loop_any (fs : gmap string node) (base_dir : string)
    (dirs : list string) (labels : pydict Z) (counts : pydict nat)
    (total_files : nat) :
  Forall (λ label, is_file fs (os_path_join base_dir (dirs ++ [label])) = false)
    (Dict.keys labels) →
  let count label :=
    length (wav_files (listing fs (os_path_join base_dir (dirs ++ [label])))) in
  count_labels_loop fs base_dir dirs labels (counts, total_files)
  = Ok (fold_left (λ d label, Dict.set label (count label) d) (Dict.keys labels) counts,
        total_files + list_sum (map count (Dict.keys labels))).
Proof.
  intros Hlay count. unfold count_labels_loop.
  eapply (for_each_acc _ _ (λ label d, Dict.set label (count label) d) count);
    [|exact Hlay].
  intros label d acc Hl. simpl. by rewrite count_folder_ok.
Qed.

(** What [count_files_in_dataset] returns when no cell is a regular
    file, for any splits and labels. *)
Lemma count_files_any (fs : gmap string node) (base_dir : string)
    (splits : option (list string)) (labels : pydict Z) :
  Forall (λ c, is_file fs (cell_path base_dir c) = false) (cells_of splits labels) →
  count_files_in_dataset fs base_dir splits labels
  = Ok (match splits with
        | Some ((_ :: _) as splits) =>
            SplitCounts
              (fold_left
                 (λ d split,
                    Dict.set split
                      (fold_left
                         (λ d label, Dict.set label (wav_count fs base_dir (Some split, label)) d)
                         (Dict.keys labels) Dict.empty) d)
                 splits Dict.empty)
        | _ =>
            LabelCounts
              (fold_left
                 (λ d label, Dict.set label (wav_count fs base_dir (None, label)) d)
                 (Dict.keys labels) Dict.empty)
        end,
        list_sum (map (wav_count fs base_dir) (cells_of splits labels))).
Proof.
  intros Hlay.
  assert (Hflat : Forall (λ c, is_file fs (cell_path base_dir c) = false)
                    (label ← Dict.keys labels; [(None, label)]) →
                  count_files_in_dataset fs base_dir None labels
                  = Ok (LabelCounts
                          (fold_left
                             (λ d label, Dict.set label (wav_count fs base_dir (None, label)) d)
                             (Dict.keys labels) Dict.empty),
                        list_sum (map (wav_count fs base_dir)
                                    (label ← Dict.keys labels; [(None, label)])))).
  { intros H. rewrite Forall_bind in H. unfold count_files_in_dataset.
    rewrite (count_labels_loop_any fs base_dir [] labels Dict.empty 0).
    - simpl. do 2 f_equal. rewrite list_sum_bind. f_equal.
      apply map_ext. intros label. simpl. unfold wav_count. simpl. lia.
    - eapply Forall_impl; [exact H|]. intros label Hl.
      unfold compose in Hl. apply Forall_cons in Hl as [Hl _]. exact Hl. }
  assert (Hloop : ∀ ss,
            Forall (λ split, Forall (λ c, is_file fs (cell_path base_dir c) = false)
                               (label ← Dict.keys labels; [(Some split, label)])) ss →
            for_each ss
              (λ split '(file_counts, total_files),
                 let! (split_counts, total_files) :=
                   count_labels_loop fs base_dir [split] labels (Dict.empty, total_files) in
                 Ok (Dict.set split split_counts file_counts, total_files))
              (Dict.empty, 0)
            = Ok (fold_left
                    (λ d split,
                       Dict.set split
                         (fold_left
                            (λ d label, Dict.set label (wav_count fs base_dir (Some split, label)) d)
                            (Dict.keys labels) Dict.empty) d)
                    ss Dict.empty,
                  0 + list_sum (map (λ split, list_sum (map (λ label, wav_count fs base_dir (Some split, label))
                                                          (Dict.keys labels))) ss))).
  { intros ss Hss.
    apply (for_each_acc ss _
             (λ split d,
                Dict.set split
                  (fold_left
                     (λ d label, Dict.set label (wav_count fs base_dir (Some split, label)) d)
                     (Dict.keys labels) Dict.empty) d)
             (λ split, list_sum (map (λ label, wav_count fs base_dir (Some split, label))
                                   (Dict.keys labels)))
             (λ split, Forall (λ c, is_file fs (cell_path base_dir c) = false)
                         (label ← Dict.keys labels; [(Some split, label)]))); [|exact Hss].
    intros split d acc Hsplit. rewrite Forall_bind in Hsplit.
    rewrite (count_labels_loop_any fs base_dir [split] labels Dict.empty acc).
    - reflexivity.
    - eapply Forall_impl; [exact Hsplit|]. intros label Hl.
      unfold compose in Hl. apply Forall_cons in Hl as [Hl _]. exact Hl. }
  destruct splits as [[|split0 splits]|]; [by apply Hflat| |by apply Hflat].
  unfold cells_of in *. rewrite Forall_bind in Hlay.
  unfold count_files_in_dataset. rewrite (Hloop _ Hlay).
  cbn [rbind]. do 2 f_equal.
  rewrite list_sum_bind. cbn [Nat.add]. f_equal. apply map_ext. intros split.
  rewrite list_sum_bind. f_equal. apply map_ext. intros label. simpl. lia.
Qed.

Lemma values_tabulated {V : Type} (f : string → V) (ks : list string) :
  Dict.values (map (λ k, (k, f k)) ks) = map f ks.
Proof. unfold Dict.values. rewrite map_map. by apply map_ext. Qed.

(** X1.  For any splits and labels, when no visited cell is a regular
    file, the counting function returns, and its total is the sum of the
    [.wav] counts of the cells it visits, a split that is listed twice
    being counted twice. *)
Theorem count_total_any_parameters (fs : gmap string node) (base_dir : string)
    (splits : option (list string)) (labels : pydict Z) :
  Forall (λ c, is_file fs (cell_path base_dir c) = false) (cells_of splits labels) →
  ∃ counts,
    count_files_in_dataset fs base_dir splits labels
    = Ok (counts, list_sum (map (wav_count fs base_dir) (cells_of splits labels))).
Proof. intros Hlay. rewrite (count_files_any _ _ _ _ Hlay). by eexists. Qed.

Lemma count_total_any_parameters_witness :
  ∃ counts,
    count_files_in_dataset demo_fs "d" (Some ["training"; "training"]) labels
    = Ok (counts, 6).
Proof.
  destruct (count_total_any_parameters demo_fs "d" (Some ["training"; "training"]) labels)
    as [counts E].
  - repeat constructor.
  - exists counts. exact E.
Defined.

(** X2.  When moreover the splits are distinct (and the keys of the
    labels, as in any dictionary), the counts dictionary has one entry
    per visited cell holding that cell's [.wav] count, and the total is
    the sum of the entries. *)
Theorem count_dictionary_distinct_keys (fs : gmap string node)
    (base_dir : string) (splits : option (list string)) (labels : pydict Z) :
  Forall (λ c, is_file fs (cell_path base_dir c) = false) (cells_of splits labels) →
  NoDup (default [] splits) →
  NoDup (Dict.keys labels) →
  ∃ counts total_files,
    count_files_in_dataset fs base_dir splits labels = Ok (counts, total_files)
    ∧ total_files = counts_sum counts
    ∧ Forall (λ c, count_at counts c = Some (wav_count fs base_dir c))
        (cells_of splits labels).
Proof.
  intros Hlay Hsplits Hlabels. rewrite (count_files_any _ _ _ _ Hlay).
  eexists _, _. split; [reflexivity|].
  assert (Hinner : ∀ split : option string,
            fold_left (λ d label, Dict.set label (wav_count fs base_dir (split, label)) d)
              (Dict.keys labels) Dict.empty
            = map (λ label, (label, wav_count fs base_dir (split, label))) (Dict.keys labels)).
  { intros split. by rewrite fold_set_fresh. }
  assert (Hflat : list_sum (map (wav_count fs base_dir) (label ← Dict.keys labels; [(None, label)]))
                  = counts_sum (LabelCounts
                       (fold_left (λ d label, Dict.set label (wav_count fs base_dir (None, label)) d)
                          (Dict.keys labels) Dict.empty))
                  ∧ Forall (λ c, count_at (LabelCounts
                       (fold_left (λ d label, Dict.set label (wav_count fs base_dir (None, label)) d)
                          (Dict.keys labels) Dict.empty)) c = Some (wav_count fs base_dir c))
                      (label ← Dict.keys labels; [(None, label)])).
  { rewrite Hinner. split.
    - simpl. unfold dict_sum. rewrite values_tabulated, list_sum_bind.
      f_equal. apply map_ext. intros label. simpl. lia.
    - apply Forall_bind, Forall_forall. intros label Hl.
      apply Forall_singleton. simpl.
      by rewrite (get_tabulated (λ label, wav_count fs base_dir (None, label))). }
  destruct splits as [[|split0 splits]|]; [exact Hflat| |exact Hflat].
  cbv beta iota delta [cells_of]. simpl in Hsplits. clear Hlay Hflat.
  set (ss := split0 :: splits) in *. clearbody ss.
  assert (fold_left
            (λ d split,
               Dict.set split
                 (fold_left
                    (λ d label, Dict.set label (wav_count fs base_dir (Some split, label)) d)
                    (Dict.keys labels) Dict.empty) d)
            ss Dict.empty
          = map (λ split, (split, map (λ label, (label, wav_count fs base_dir (Some split, label)))
                                    (Dict.keys labels))) ss) as ->.
  { rewrite (fold_set_fresh
               (λ split, fold_left
                           (λ d label, Dict.set label (wav_count fs base_dir (Some split, label)) d)
                           (Dict.keys labels) Dict.empty)) by done.
    unfold Dict.empty. cbn [app]. apply map_ext. intros split. by rewrite Hinner. }
  split.
  - simpl. rewrite (values_tabulated
                      (λ split, map (λ label, (label, wav_count fs base_dir (Some split, label)))
                                  (Dict.keys labels))).
    rewrite map_map, list_sum_bind. f_equal. apply map_ext. intros split.
    unfold dict_sum. rewrite values_tabulated, list_sum_bind.
    f_equal. apply map_ext. intros label. simpl. lia.
  - apply Forall_bind, Forall_forall. intros split Hs.
    apply Forall_bind, Forall_forall. intros label Hl.
    apply Forall_singleton. simpl.
    rewrite (get_tabulated
               (λ split, map (λ label, (label, wav_count fs base_dir (Some split, label)))
                           (Dict.keys labels))) by done.
    simpl.
    by rewrite (get_tabulated (λ label, wav_count fs base_dir (Some split, label))).
Qed.

Lemma count_dictionary_distinct_keys_witness :
  ∃ counts,
    count_files_in_dataset demo_fs "d" (Some ["testing"; "training"])
      [("real", 7%Z); ("fake", 9%Z)]
    = Ok (counts, 3)
    ∧ counts_sum counts = 3
    ∧ count_at counts (Some "training", "fake") = Some 2.
Proof.
  destruct (count_dictionary_distinct_keys demo_fs "d" (Some ["testing"; "training"])
              [("real", 7%Z); ("fake", 9%Z)])
    as (counts & total_files & E & Hsum & Hat).
  - repeat constructor.
  - by apply (bool_decide_unpack _); vm_compute.
  - by apply (bool_decide_unpack _); vm_compute.
  - assert (total_files = 3) as -> by (vm_compute in E; congruence).
    exists counts. split; [exact E|]. split; [done|].
    vm_compute in E. injection E as <-. reflexivity.
Defined.

(** *** A cell that is a regular file *)

Lemma for_each_raise {A S : Type} (l : list A) (body : A → S → result S)
    (s : S) (e : exn) :
  for_each l body s = Raise e → ∃ x s0, x ∈ l ∧ body x s0 = Raise e.
Proof.
  revert s. induction l as [|x l IH]; intros s H; [discriminate H|].
  simpl in H. destruct (body x s) as [s1|e1] eqn:E; simpl in H.
  - destruct (IH _ H) as (y & s0 & Hy & Hb). exists y, s0. split; [by right|done].
  - injection H as ->. exists x, s. split; [by left|done].
Qed.

(** The exception of [os.listdir] on a path that is no directory. *)
Lemma count_folder_inv (fs : gmap string node) (folder_path : string) :
  match count_folder fs folder_path with
  | Ok _ => is_file fs folder_path = false
  | Raise e =>
      is_file fs folder_path = true
      ∧ e = Exn "NotADirectoryError"
              ("[Errno 20] Not a directory: '" +:+ folder_path +:+ "'")
  end.
Proof.
  unfold count_folder, os_path_exists, os_listdir, is_file.
  destruct (fs !! folder_path) as [[l|]|].
  - by rewrite bool_decide_eq_true_2 by eauto.
  - by rewrite bool_decide_eq_true_2 by eauto.
  - by rewrite bool_decide_eq_false_2 by (by intros [? ?]).
Qed.

Lemma count_labels_loop_inv (fs : gmap string node) (base_dir : string)
    (dirs : list string) (labels : pydict Z) (init : pydict nat * nat) :
  match count_labels_loop fs base_dir dirs labels init with
  | Ok _ =>
      Forall (λ label, is_file fs (os_path_join base_dir (dirs ++ [label])) = false)
        (Dict.keys labels)
  | Raise e =>
      ∃ label,
        label ∈ Dict.keys labels
        ∧ is_file fs (os_path_join base_dir (dirs ++ [label])) = true
        ∧ e = Exn "NotADirectoryError"
                ("[Errno 20] Not a directory: '"
                 +:+ os_path_join base_dir (dirs ++ [label]) +:+ "'")
  end.
Proof.
  unfold count_labels_loop.
  destruct (for_each _ _ init) as [r|e] eqn:E.
  - eapply for_each_ok_Forall; [|exact E].
    intros label [counts total0] s' Hb. simpl in Hb.
    pose proof (count_folder_inv fs (os_path_join base_dir (dirs ++ [label]))) as Hc.
    by destruct (count_folder fs (os_path_join base_dir (dirs ++ [label]))).
  - apply for_each_raise in E as (label & [counts total0] & Hl & Hb). simpl in Hb.
    pose proof (count_folder_inv fs (os_path_join base_dir (dirs ++ [label]))) as Hc.
    destruct (count_folder fs (os_path_join base_dir (dirs ++ [label])));
      [discriminate Hb|]. injection Hb as <-. destruct Hc. by exists label.
Qed.

Lemma count_files_inv (fs : gmap string node) (base_dir : string)
    (splits : option (list string)) (labels : pydict Z) :
  match count_files_in_dataset fs base_dir splits labels with
  | Ok _ =>
      Forall (λ c, is_file fs (cell_path base_dir c) = false) (cells_of splits labels)
  | Raise e =>
      ∃ c,
        c ∈ cells_of splits labels
        ∧ is_file fs (cell_path base_dir c) = true
        ∧ e = Exn "NotADirectoryError"
                ("[Errno 20] Not a directory: '" +:+ cell_path base_dir c +:+ "'")
  end.
Proof.
  assert (Hflat : match count_files_in_dataset fs base_dir None labels with
                  | Ok _ =>
                      Forall (λ c, is_file fs (cell_path base_dir c) = false)
                        (label ← Dict.keys labels; [(None, label)])
                  | Raise e =>
                      ∃ c,
                        c ∈ (label ← Dict.keys labels; [(None, label)])
                        ∧ is_file fs (cell_path base_dir c) = true
                        ∧ e = Exn "NotADirectoryError"
                                ("[Errno 20] Not a directory: '"
                                 +:+ cell_path base_dir c +:+ "'")
                  end).
  { unfold count_files_in_dataset.
    pose proof (count_labels_loop_inv fs base_dir [] labels (Dict.empty, 0)) as H.
    destruct (count_labels_loop fs base_dir [] labels (Dict.empty, 0)) as [[d t]|e];
      cbn [rbind].
    - apply Forall_bind. eapply Forall_impl; [exact H|].
      intros label Hl. by apply Forall_singleton.
    - destruct H as (label & Hl & Hf & ->). exists (None, label).
      split; [|done]. apply list_elem_of_bind. exists label.
      split; [apply list_elem_of_here|done]. }
  destruct splits as [[|split0 splits]|]; [exact Hflat| |exact Hflat].
  unfold count_files_in_dataset, cells_of.
  destruct (for_each (split0 :: splits) _ (Dict.empty, 0)) as [[d t]|e] eqn:E;
    cbn [rbind].
  - apply Forall_bind.
    eapply for_each_ok_Forall; [|exact E].
    intros split [fc total0] s' Hb. simpl in Hb.
    pose proof (count_labels_loop_inv fs base_dir [split] labels (Dict.empty, total0)) as H.
    destruct (count_labels_loop fs base_dir [split] labels (Dict.empty, total0))
      as [[sc t1]|]; [|discriminate Hb].
    apply Forall_bind. eapply Forall_impl; [exact H|].
    intros label Hl. by apply Forall_singleton.
  - apply for_each_raise in E as (split & [fc total0] & Hs & Hb). simpl in Hb.
    pose proof (count_labels_loop_inv fs base_dir [split] labels (Dict.empty, total0)) as H.
    destruct (count_labels_loop fs base_dir [split] labels (Dict.empty, total0))
      as [[sc t1]|]; [discriminate Hb|]. injection Hb as <-.
    destruct H as (label & Hl & Hf & ->). exists (Some split, label).
    split; [|done]. apply list_elem_of_bind. exists split. split; [|done].
    apply list_elem_of_bind. exists label. split; [apply list_elem_of_here|done].
Qed.



(** ** Further properties of the batch functions *)

Lemma appends_only_ret {A : Type} (a : A) : appends_only (io_ret a).
Proof. intros log. unfold io_ret. simpl. by rewrite app_nil_r. Qed.

Lemma appends_only_lift {A : Type} (r : result A) : appends_only (lift r).
Proof. intros log. unfold lift. simpl. by rewrite app_nil_r. Qed.

Lemma appends_only_bind {A B : Type} (m : io A) (k : A → io B) :
  appends_only m → (∀ a, appends_only (k a)) → appends_only (io_bind m k).
Proof.
  intros Hm Hk log. unfold io_bind. rewrite (Hm log).
  destruct (m []) as [[a|e] l0]; simpl; [|done].
  rewrite (Hk a (log ++ l0)), (Hk a l0). simpl. by rewrite app_assoc.
Qed.

Lemma appends_only_for_each {A S : Type} (l : list A) (body : A → S → io S)
    (s : S) :
  (∀ x s, appends_only (body x s)) → appends_only (for_each_io l body s).
Proof.
  intros Hbody. revert s. induction l as [|x l IH]; intros s; simpl.
  - apply appends_only_ret.
  - apply appends_only_bind; [apply Hbody|apply IH].
Qed.

Section AppendsOnly.
Context {F : Type}.
Variable np_mean : list F → F.
Variable librosa : Librosa F.
Variable fs : gmap string node.
Variable log_refuses : string → option (exn * list string).

Lemma appends_only_extract file_path :
  appends_only (extract_features np_mean librosa log_refuses file_path).
Proof.
  intros log. rewrite !extract_features_cases.
  destruct (extract_features_try np_mean librosa file_path); simpl;
    [by rewrite app_nil_r|].
  by destruct (log_refuses _) as [[e' partial]|].
Qed.

Lemma appends_only_file split label folder_path file st :
  appends_only (process_file np_mean librosa log_refuses split label folder_path file st).
Proof.
  destruct st as [rows bar]. unfold process_file.
  destruct (endswith file wav); [|apply appends_only_ret].
  apply appends_only_bind; [apply appends_only_extract|]. intros features.
  apply appends_only_bind; [|intros; apply appends_only_ret].
  destruct features as [d|]; [|apply appends_only_ret].
  destruct (truthy (Some d)); [|apply appends_only_ret].
  apply appends_only_bind; [apply appends_only_lift|].
  intros; apply appends_only_ret.
Qed.

Lemma appends_only_folder split folder_path label st :
  appends_only (process_folder np_mean librosa fs log_refuses split folder_path label st).
Proof.
  unfold process_folder.
  destruct (negb (os_path_exists fs folder_path)); [apply appends_only_ret|].
  apply appends_only_bind; [apply appends_only_lift|]. intros entries.
  apply appends_only_for_each. intros. apply appends_only_file.
Qed.

Lemma appends_only_run ds base_dir :
  appends_only (run np_mean librosa fs log_refuses ds base_dir).
Proof.
  destruct ds; unfold run, for_norm_run, release_in_wild_run;
    (apply appends_only_bind; [apply appends_only_lift|]); intros t;
    apply appends_only_for_each; intros.
  - apply appends_only_for_each. intros. apply appends_only_folder.
  - apply appends_only_folder.
Qed.

Lemma appends_only_process ds base_dir :
  appends_only (process np_mean librosa fs log_refuses ds base_dir).
Proof.
  destruct ds; unfold process, process_audio_files_for_norm,
    process_audio_files_release_in_wild;
    (apply appends_only_bind;
     [apply (appends_only_run for_norm) || apply (appends_only_run release_in_the_wild)|]);
    intros [rows bar]; apply appends_only_ret.
Qed.
End AppendsOnly.


(** *** A cell that is a regular file stops the batch at once *)

Lemma listdir_len_class (fs : gmap string node) (folder_path : string)
    (acc : nat) (e : exn) :
  (if os_path_exists fs folder_path
   then let! entries := os_listdir fs folder_path in Ok (acc + length entries)
   else Ok acc) = Raise e →
  exn_class e = "NotADirectoryError".
Proof.
  unfold os_path_exists, os_listdir.
  destruct (fs !! folder_path) as [[l|]|].
  - by rewrite bool_decide_eq_true_2 by eauto.
  - rewrite bool_decide_eq_true_2 by eauto. simpl. by intros [= <-].
  - by rewrite bool_decide_eq_false_2 by (by intros [? ?]).
Qed.

Lemma total_files_class (fs : gmap string node) (ds : dataset)
    (base_dir : string) (e : exn) :
  total_files fs ds base_dir = Raise e → exn_class e = "NotADirectoryError".
Proof.
  destruct ds; unfold total_files, for_norm_total_files,
    release_in_wild_total_files; intros H.
  - apply for_each_raise in H as (split & acc & _ & H).
    apply for_each_raise in H as (label & acc' & _ & H).
    by eapply listdir_len_class.
  - apply for_each_raise in H as (label & acc' & _ & H).
    by eapply listdir_len_class.
Qed.

(** X5.  When a split/label path of the dataset exists but is no
    directory, the batch function raises the [NotADirectoryError] of
    [os.listdir] while it adds up the total for the progress bar: before
    any file is loaded, so with no row and no line added to the log,
    whatever the files are. *)
Theorem batch_stops_on_file_cell {F : Type} (np_mean : list F → F)
    (librosa : Librosa F) (fs : gmap string node)
    (log_refuses : string → option (exn * list string)) (ds : dataset)
    (base_dir : string) (log : list string) :
  Exists (λ c, is_file fs (cell_path base_dir c) = true) (cells ds) →
  ∃ msg,
    total_files fs ds base_dir = Raise (Exn "NotADirectoryError" msg)
    ∧ process np_mean librosa fs log_refuses ds base_dir log
      = (Raise (Exn "NotADirectoryError" msg), log).
Proof.
  intros Hex.
  destruct (total_files fs ds base_dir) as [t|[cls msg]] eqn:Ht.
  - apply total_files_ok_layout in Ht. unfold directory_layout in Ht.
    apply Exists_exists in Hex as (c & Hc & Hfile).
    eapply Forall_forall in Ht; [|exact Hc]. congruence.
  - pose proof (total_files_class _ _ _ _ Ht) as Hcls. simpl in Hcls. subst cls.
    exists msg. split; [done|].
    destruct ds; unfold total_files in Ht;
      unfold process, process_audio_files_for_norm,
        process_audio_files_release_in_wild, for_norm_run, release_in_wild_run,
        io_bind, lift;
      by rewrite Ht.
Qed.

Lemma batch_stops_on_file_cell_witness :
  ∃ msg,
    process demo_mean demo_lib (<["d/testing/real" := File]> demo_fs) accepts_all for_norm "d" []
    = (Raise (Exn "NotADirectoryError" msg), []).
Proof.
  destruct (batch_stops_on_file_cell demo_mean demo_lib
              (<["d/testing/real" := File]> demo_fs) accepts_all for_norm "d" [])
    as (msg & _ & E).
  - do 5 right. by left.
  - exists msg. exact E.
Defined.

(** *** What a row holds *)

Lemma get_app {V : Type} (k : string) (d1 d2 : pydict V) :
  Dict.get k (d1 ++ d2)
  = match Dict.get k d1 with Some v => Some v | None => Dict.get k d2 end.
Proof.
  induction d1 as [|[k' v'] d1 IH]; simpl; [done|].
  by destruct (String.eqb k k').
Qed.

Lemma get_absent {V : Type} (k : string) (d : pydict V) :
  key_in k (Dict.keys d) = false → Dict.get k d = None.
Proof.
  induction d as [|[k' v'] d IH]; simpl; [done|].
  destruct (String.eqb k k'); simpl; [done|apply IH].
Qed.

Lemma get_present {V : Type} (k : string) (d : pydict V) :
  key_in k (Dict.keys d) = true → is_Some (Dict.get k d).
Proof.
  induction d as [|[k' v'] d IH]; simpl; [done|].
  destruct (String.eqb k k'); simpl; [eauto|apply IH].
Qed.

Lemma entries_elem (fs : gmap string node) (ds : dataset) (base_dir : string)
    (e : entry) :
  e ∈ entries fs ds base_dir ↔
  ∃ c file, e = Entry c.1 c.2 (cell_path base_dir c) file
            ∧ c ∈ cells ds
            ∧ file ∈ listing fs (cell_path base_dir c)
            ∧ endswith file wav = true.
Proof.
  unfold entries, folder_entries, wav_files. rewrite list_elem_of_bind. split.
  - intros (c & He & Hc). apply list_elem_of_fmap in He as (file & -> & Hf).
    apply list_elem_of_In, filter_In in Hf as [Hf Hw].
    apply list_elem_of_In in Hf. by exists c, file.
  - intros (c & file & -> & Hc & Hf & Hw). exists c. split; [|done].
    apply list_elem_of_fmap. exists file. split; [done|].
    apply list_elem_of_In, filter_In. split; [by apply list_elem_of_In|done].
Qed.

(** X6.  Every row the batch function returns is the row of one [.wav]
    file listed in the folder of one cell of the dataset, on which
    loading and extraction succeeded: the row holds that file's name
    under [filename], the cell's label under [label], the code
    [labels[label]] under [LABEL], the cell's split under [split] (no
    such key in the flat dataset), and under each canonical key the value
    of the extracted vector, which the four added keys leave untouched. *)
Theorem rows_describe_their_files {F : Type} (np_mean : list F → F)
    (librosa : Librosa F) (fs : gmap string node)
    (log_refuses : string → option (exn * list string)) (ds : dataset)
    (base_dir : string) (log log' : list string)
    (rows : list (pydict (value F))) (r : pydict (value F)) :
  process np_mean librosa fs log_refuses ds base_dir log = (Ok rows, log') →
  r ∈ rows →
  ∃ c file features code,
    c ∈ cells ds
    ∧ file ∈ listing fs (cell_path base_dir c)
    ∧ endswith file wav = true
    ∧ extract_features_try np_mean librosa (os_path_join (cell_path base_dir c) [file])
      = Ok features
    ∧ Dict.get c.2 labels = Some code
    ∧ Dict.get "filename" r = Some (VStr file)
    ∧ Dict.get "split" r = VStr <$> c.1
    ∧ Dict.get "label" r = Some (VStr c.2)
    ∧ Dict.get "LABEL" r = Some (VInt code)
    ∧ ∀ k, k ∈ canonical_keys → Dict.get k r = Dict.get k features.
Proof.
  intros Hproc Hr.
  pose proof (process_ok_layout _ _ _ _ _ _ _ _ _ Hproc) as Hlay.
  destruct (process_ok_run _ _ _ _ _ _ _ _ _ Hproc) as [bar0 Hrun].
  pose proof (run_ok_accepts _ _ _ _ _ _ _ _ _ _ Hrun) as Hacc.
  destruct (run_spec np_mean librosa fs log_refuses ds base_dir log Hlay Hacc)
    as (rows' & bar & log1 & E & [Hrows _ _ _]).
  rewrite E in Hrun. injection Hrun as -> _ _.
  simpl in Hrows. subst rows.
  apply list_elem_of_In, in_flat_map in Hr as (e & He & Hr).
  apply list_elem_of_In, entries_elem in He as (c & file & -> & Hc & Hf & Hw).
  unfold feature_rows in Hr. cbn [entry_label] in Hr.
  change (entry_path (Entry c.1 c.2 (cell_path base_dir c) file))
    with (os_path_join (cell_path base_dir c) [file]) in Hr.
  destruct (extract_features_try np_mean librosa
              (os_path_join (cell_path base_dir c) [file])) as [features|] eqn:Htry;
    [|by destruct Hr].
  destruct (Dict.get c.2 labels) as [code|] eqn:Hcode; [|by destruct Hr].
  destruct Hr as [<-|[]].
  destruct (extract_features_try_ok _ _ _ _ Htry) as (_ & _ & _ & _ & _ & Hk & _).
  exists c, file, features, code. do 5 (split; [done|]).
  unfold feature_row. cbn [entry_file entry_split entry_label].
  assert (∀ k rest, key_in k canonical_keys = false →
                    Dict.get k (features ++ rest) = Dict.get k rest) as Hnew.
  { intros k rest Hk'. rewrite get_app, get_absent; [done|]. by rewrite Hk. }
  rewrite !Hnew by done.
  split; [done|]. split; [by destruct c.1|]. split; [by destruct c.1|].
  split; [by destruct c.1|].
  intros k Hin. rewrite get_app.
  destruct (get_present k features) as [v ->]; [|done].
  rewrite Hk. by apply key_in_spec.
Qed.

Lemma rows_describe_their_files_witness :
  ∃ rows log' r,
    process demo_mean demo_lib demo_fs accepts_all for_norm "d" [] = (Ok rows, log')
    ∧ rows !! 1 = Some r
    ∧ ∃ c file,
        Dict.get "filename" r = Some (VStr file)
        ∧ Dict.get "label" r = Some (VStr c.2)
        ∧ Dict.get "split" r = VStr <$> c.1.
Proof.
  eexists _, _, _. split; [by vm_compute|]. split; [reflexivity|].
  edestruct (rows_describe_their_files demo_mean demo_lib demo_fs accepts_all
               for_norm "d" [])
    as (c & file & features & code & _ & _ & _ & _ & _ & H1 & H2 & H3 & _).
  - by vm_compute.
  - do 1 right. left.
  - exists c, file. split; [exact H1|]. split; [exact H3|exact H2].
Defined.

(** *** The progress bar *)

Lemma filter_length_all {A : Type} (f : A → bool) (l : list A) :
  length (List.filter f l) = length l ↔ Forall (λ x, f x = true) l.
Proof.
  induction l as [|x l IH]; simpl; [by split; [constructor|]|].
  pose proof (List.filter_length_le f l) as Hle.
  destruct (f x) eqn:E; simpl.
  - rewrite Forall_cons, <- IH. split; [intros [= ->]; done|intros [_ ->]; done].
  - split; [lia|]. intros H. apply Forall_cons in H as [H _]. congruence.
Qed.

Lemma list_sum_le_eq {A : Type} (a b : A → nat) (l : list A) :
  (∀ x, a x ≤ b x) →
  list_sum (map a l) ≤ list_sum (map b l)
  ∧ (list_sum (map a l) = list_sum (map b l) ↔ Forall (λ x, a x = b x) l).
Proof.
  intros Hle. induction l as [|x l [IHle IH]]; simpl; [by split; [|split; [constructor|]]|].
  specialize (Hle x). split; [lia|]. rewrite Forall_cons, <- IH. lia.
Qed.

(** X7.  On a directory layout, in a run that ends (the log takes the
    records of the failing entries), the bar is created with the number
    of all directory entries of the cells as its total and is advanced
    once per [.wav] file: it never passes its total, and it ends at its
    total exactly when every name in every cell ends in [.wav]. *)
Theorem progress_bar_reaches_total_iff {F : Type} (np_mean : list F → F)
    (librosa : Librosa F) (fs : gmap string node)
    (log_refuses : string → option (exn * list string)) (ds : dataset)
    (base_dir : string) (log : list string) :
  directory_layout fs ds base_dir →
  log_accepts np_mean librosa log_refuses (entries fs ds base_dir) →
  ∃ rows bar log',
    run np_mean librosa fs log_refuses ds base_dir log = (Ok (rows, bar), log')
    ∧ total bar = listed fs ds base_dir
    ∧ n bar = length (entries fs ds base_dir)
    ∧ n bar ≤ total bar
    ∧ (n bar = total bar
       ↔ Forall (λ c, Forall (λ file, endswith file wav = true)
                        (listing fs (cell_path base_dir c)))
           (cells ds)).
Proof.
  intros Hlay Hacc.
  destruct (run_spec np_mean librosa fs log_refuses ds base_dir log Hlay Hacc)
    as (rows & bar & log' & E & [_ _ Ht Hn]).
  simpl in Ht, Hn. exists rows, bar, log'.
  split; [exact E|]. split; [exact Ht|]. split; [exact Hn|].
  rewrite Hn, Ht, length_entries. unfold listed.
  destruct (list_sum_le_eq
              (λ c, length (wav_files (listing fs (cell_path base_dir c))))
              (λ c, length (listing fs (cell_path base_dir c))) (cells ds))
    as [Hle Heq].
  { intros c. apply List.filter_length_le. }
  split; [exact Hle|]. rewrite Heq.
  split; intros H; (eapply Forall_impl; [exact H|]); intros c Hc;
    by apply filter_length_all.
Qed.

Lemma progress_bar_reaches_total_iff_witness :
  ∃ rows bar log',
    run demo_mean demo_lib wild_fs accepts_all release_in_the_wild "w" [] = (Ok (rows, bar), log')
    ∧ n bar = total bar.
Proof.
  destruct (progress_bar_reaches_total_iff demo_mean demo_lib wild_fs
              accepts_all release_in_the_wild "w" [])
    as (rows & bar & log' & E & _ & _ & _ & Hiff).
  - repeat constructor.
  - apply Forall_forall. intros e _ x _. reflexivity.
  - exists rows, bar, log'. split; [exact E|]. apply Hiff. repeat constructor.
Defined.

(** *** Files counted, rows returned, failures logged *)

Lemma cells_of_dataset (ds : dataset) :
  cells_of (dataset_splits ds) labels = cells ds.
Proof. by destruct ds. Qed.

(** X8.  On a directory layout whose log takes the records of the
    failing entries, the total that the counting function reports for a
    dataset is the number of rows the batch function returns plus the
    number of records it appends to the error log, one for each failing
    file. *)
Theorem counted_is_rows_plus_failures {F : Type} (np_mean : list F → F)
    (librosa : Librosa F) (fs : gmap string node)
    (log_refuses : string → option (exn * list string)) (ds : dataset)
    (base_dir : string) (log : list string) :
  directory_layout fs ds base_dir →
  log_accepts np_mean librosa log_refuses (entries fs ds base_dir) →
  ∃ counts total_files rows added,
    count_files_in_dataset fs base_dir (dataset_splits ds) labels
    = Ok (counts, total_files)
    ∧ process np_mean librosa fs log_refuses ds base_dir log
      = (Ok rows, log ++ added)
    ∧ total_files = length rows + length added
    ∧ length added
      = length (List.filter (λ e, negb (succeeded np_mean librosa e))
                  (entries fs ds base_dir)).
Proof.
  intros Hlay Hacc.
  destruct (run_spec np_mean librosa fs log_refuses ds base_dir log Hlay Hacc)
    as (rows & bar & log' & E & [Hrows -> _ _]).
  apply process_of_run in E. simpl in Hrows. subst rows.
  assert (Forall (λ c, is_file fs (cell_path base_dir c) = false)
            (cells_of (dataset_splits ds) labels)) as Hcells
    by (rewrite cells_of_dataset; exact Hlay).
  rewrite (count_files_any _ _ _ _ Hcells). eexists _, _, _, _.
  split; [reflexivity|]. split; [exact E|].
  rewrite cells_of_dataset.
  change (list_sum (map (wav_count fs base_dir) (cells ds)))
    with (list_sum (map (λ c, length (wav_files (listing fs (cell_path base_dir c))))
                      (cells ds))).
  rewrite <- length_entries, rows_length
    by (eapply Forall_impl; [apply entries_wf|]; by intros e [? _]).
  pose proof (failures_successes np_mean librosa (entries fs ds base_dir)) as Hfs.
  split; [lia|].
  unfold failure_lines, succeeded.
  generalize (entries fs ds base_dir). intros es.
  induction es as [|e es IH]; [done|]. cbn [flat_map List.filter].
  destruct (extract_features_try np_mean librosa (entry_path e)); simpl;
    by rewrite IH.
Qed.

Lemma counted_is_rows_plus_failures_witness :
  ∃ counts rows added,
    count_files_in_dataset demo_fs "d" (dataset_splits for_norm) labels
    = Ok (counts, 3)
    ∧ process demo_mean demo_lib demo_fs accepts_all for_norm "d" []
      = (Ok rows, [] ++ added)
    ∧ 3 = length rows + length added.
Proof.
  destruct (counted_is_rows_plus_failures demo_mean demo_lib demo_fs accepts_all
              for_norm "d" [] (demo_layout for_norm))
    as (counts & total_files & rows & added & E1 & E2 & Hsum & _).
  - apply Forall_forall. intros e _ x _. reflexivity.
  - assert (total_files = 3) as -> by (vm_compute in E1; congruence).
    by exists counts, rows, added.
Defined.

(** ** Further properties of [extract_features] *)

(** X9.  When loading and the seven [librosa] calls return, and the
    cepstral matrix has at least 20 rows, extraction succeeds and the
    vector is, in this order, the mean over all elements of each of the
    six descriptor arrays and the mean of each of the first 20 rows of
    the matrix; further rows are ignored. *)
Theorem extracted_vector_closed_form {F : Type} (np_mean : list F → F)
    (librosa : Librosa F) (file_path : string) (y : list F) (sr : Z)
    (chroma energy centroid bandwidth rolloff zcr mfccs : list (list F)) :
  load librosa file_path = Ok (y, sr) →
  chroma_stft librosa y sr = Ok chroma →
  rms librosa y = Ok energy →
  spectral_centroid librosa y sr = Ok centroid →
  spectral_bandwidth librosa y sr = Ok bandwidth →
  spectral_rolloff librosa y sr = Ok rolloff →
  zero_crossing_rate librosa y = Ok zcr →
  mfcc librosa y sr 20 = Ok mfccs →
  20 ≤ length mfccs →
  extract_features_try np_mean librosa file_path
  = Ok ([("chroma_stft", VFloat (np_mean (concat chroma)));
         ("rms", VFloat (np_mean (concat energy)));
         ("spectral_centroid", VFloat (np_mean (concat centroid)));
         ("spectral_bandwidth", VFloat (np_mean (concat bandwidth)));
         ("rolloff", VFloat (np_mean (concat rolloff)));
         ("zero_crossing_rate", VFloat (np_mean (concat zcr)))]
        ++ imap (λ i coefficient, (mfcc_key (S i), VFloat (np_mean coefficient)))
             (take 20 mfccs)).
Proof.
  intros Hl H1 H2 H3 H4 H5 H6 H7 Hlen. unfold extract_features_try.
  rewrite Hl. cbn [rbind]. rewrite H1, H2, H3, H4, H5, H6. cbn [rbind].
  rewrite H7. cbn [rbind]. unfold np_mean2.
  do 20 (destruct mfccs as [|? mfccs]; [simpl in Hlen; lia|]).
  reflexivity.
Qed.

Lemma extracted_vector_closed_form_witness :
  ∃ features,
    extract_features_try demo_mean demo_lib "d/training/real/c.wav" = Ok features
    ∧ Dict.get "chroma_stft" features = Some (VFloat 2%Z)
    ∧ Dict.get "mfcc20" features = Some (VFloat 20%Z).
Proof.
  eexists. split.
  - eapply (extracted_vector_closed_form demo_mean demo_lib "d/training/real/c.wav");
      reflexivity.
  - by vm_compute.
Defined.

(** X10.  When loading and the seven [librosa] calls return but the
    cepstral matrix has fewer than 20 rows, indexing the first missing
    row raises the [IndexError] of that index, and the handler of
    [extract_features] writes its record: when the log takes it the
    function returns [None] with the record appended, the text
    [Error processing <path>: index <k> is out of bounds for axis 0 with
    size <k>] and a line feed; when the log refuses it the exception of
    the refusal leaves the function. *)
Theorem extraction_needs_twenty_rows {F : Type} (np_mean : list F → F)
    (librosa : Librosa F) (log_refuses : string → option (exn * list string))
    (file_path : string) (log : list string)
    (y : list F) (sr : Z)
    (chroma energy centroid bandwidth rolloff zcr mfccs : list (list F)) :
  load librosa file_path = Ok (y, sr) →
  chroma_stft librosa y sr = Ok chroma →
  rms librosa y = Ok energy →
  spectral_centroid librosa y sr = Ok centroid →
  spectral_bandwidth librosa y sr = Ok bandwidth →
  spectral_rolloff librosa y sr = Ok rolloff →
  zero_crossing_rate librosa y = Ok zcr →
  mfcc librosa y sr 20 = Ok mfccs →
  length mfccs < 20 →
  let size := NilZero.string_of_uint (Nat.to_uint (length mfccs)) in
  let message :=
    "index " +:+ size +:+ " is out of bounds for axis 0 with size " +:+ size in
  let record :=
    "Error processing " +:+ file_path +:+ ": " +:+ message
    +:+ String "010"%char EmptyString in
  extract_features_try np_mean librosa file_path = Raise (Exn "IndexError" message)
  ∧ extract_features np_mean librosa log_refuses file_path log
    = match log_refuses record with
      | None => (Ok None, log ++ [record])
      | Some (e', partial) => (Raise e', log ++ partial)
      end.
Proof.
  intros Hl H1 H2 H3 H4 H5 H6 H7 Hlen size message record.
  assert (extract_features_try np_mean librosa file_path
          = Raise (Exn "IndexError" message)) as Htry.
  { unfold extract_features_try.
    rewrite Hl. cbn [rbind]. rewrite H1, H2, H3, H4, H5, H6. cbn [rbind].
    rewrite H7. cbn [rbind]. subst message size.
    do 20 (destruct mfccs as [|? mfccs]; [reflexivity|]).
    simpl in Hlen. lia. }
  split; [exact Htry|].
  rewrite extract_features_cases, Htry. reflexivity.
Qed.

Lemma extraction_needs_twenty_rows_witness :
  extract_features demo_mean short_lib accepts_all "d/training/real/c.wav" []
  = (Ok None,
     ["Error processing d/training/real/c.wav: index 13 is out of bounds for axis 0 with size 13"
      +:+ String "010"%char EmptyString]).
Proof.
  edestruct (extraction_needs_twenty_rows demo_mean short_lib accepts_all
               "d/training/real/c.wav" [])
    as (_ & E); [reflexivity..|simpl; lia|exact E].
Defined.

(** ** The preparation of the flat dataset *)

Example prepare_wild :
  let (tree, out) := Prep.prepare wild_cwd no_refusal no_such_file wild_meta (wild_tree, []) in
  tree !! ["home"; "project"; "data"; "processed_data"; "fake"; "0.wav"]
  = Some (Blob "zero")
  ∧ tree !! ["home"; "project"; "data"; "processed_data"; "real"; "1.wav"]
    = Some (Blob "one")
  ∧ tree !! ["home"; "project"; "data"; "processed_data"; "real"; "2.wav"]
    = Some (Blob "two")
  ∧ tree !! ["home"; "project"; "data"; "processed_data"; "fake"; "9.wav"] = None
  ∧ tree !! ["home"; "project"; "data"; "release_in_the_wild"; "0.wav"]
    = Some (Blob "zero")
  ∧ out = ["File not found: ./data/release_in_the_wild/9.wav. Skipping..."].
Proof. vm_compute. repeat split. Qed.

(** A name that climbs out of its folder: the copy lands outside the
    label folders, on the file of another name. *)
Example climbing_name :
  let tree :=
    <[["home"; "project"; "data"; "notes.txt"] := Blob "old"]>
    (<[["home"; "project"; "notes.txt"] := Blob "new"]> wild_tree) in
  (Prep.prepare wild_cwd no_refusal no_such_file [MetaRow "../../notes.txt" "x" "spoof"]
     (tree, [])).1 !! ["home"; "project"; "data"; "notes.txt"]
  = Some (Blob "new").
Proof. vm_compute. reflexivity. Qed.

(** *** Paths and their components *)

Lemma components_from_nonempty (acc s : string) : components_from acc s ≠ [].
Proof.
  revert acc. induction s as [|c s IH]; intros acc; simpl; [done|].
  destruct (Ascii.eqb c "/"); [done|apply IH].
Qed.

Lemma components_from_app (a : string) :
  ∀ (acc b : string),
  components_from acc (a +:+ String "/" b)
  = components_from acc a ++ components b.
Proof.
  induction a as [|c a IH]; intros acc b; [done|].
  change (String c a +:+ String "/" b) with (String c (a +:+ String "/" b)).
  cbn [components_from]. destruct (Ascii.eqb c "/"); by rewrite IH.
Qed.

Lemma components_app (a b : string) :
  components (a +:+ String "/" b) = components a ++ components b.
Proof. apply components_from_app. Qed.

Lemma no_sep_app (a b : string) : no_sep a = true → no_sep b = true →
  no_sep (a +:+ b) = true.
Proof.
  intros Ha Hb. induction a as [|c a IH]; [done|].
  change (String c a +:+ b) with (String c (a +:+ b)).
  cbn [no_sep] in *. apply andb_true_iff in Ha as [-> Ha]. by rewrite IH.
Qed.

Lemma components_from_no_sep (acc s : string) :
  no_sep acc = true → Forall (λ c, no_sep c = true) (components_from acc s).
Proof.
  revert acc. induction s as [|c s IH]; intros acc Hacc; simpl.
  - by constructor.
  - destruct (Ascii.eqb c "/") eqn:E.
    + constructor; [done|]. by apply IH.
    + apply IH, no_sep_app; [done|]. cbn [no_sep]. by rewrite E.
Qed.

Lemma components_single (b : string) :
  ∀ acc, no_sep b = true → components_from acc b = [acc +:+ b].
Proof.
  induction b as [|c b IH]; intros acc Hb.
  - by rewrite append_nil_r.
  - cbn [no_sep] in Hb. apply andb_true_iff in Hb as [Hc Hb].
    apply negb_true_iff in Hc. cbn [components_from]. rewrite Hc, IH by done.
    by rewrite append_assoc.
Qed.

Lemma startswith_sep_cons (a : ascii) (s : string) :
  startswith (String a s) sep = Ascii.eqb a "/".
Proof.
  unfold startswith, sep. cbn -[ascii_dec].
  destruct (ascii_dec "/" a) as [<-|Hn]; [by destruct s|].
  symmetry. apply Ascii.eqb_neq. congruence.
Qed.

Lemma no_sep_relative (b : string) : no_sep b = true → startswith b sep = false.
Proof.
  destruct b as [|c b]; [done|]. cbn [no_sep]. intros H.
  apply andb_true_iff in H as [Hc _]. apply negb_true_iff in Hc.
  by rewrite startswith_sep_cons.
Qed.

Lemma basename_in_components (path : string) :
  os_path_basename path ∈ components path.
Proof.
  unfold os_path_basename, components.
  pose proof (components_from_nonempty EmptyString path) as Hne.
  destruct (components_from EmptyString path) as [|c l] using rev_ind; [done|].
  rewrite last_last. apply elem_of_app. right. apply list_elem_of_here.
Qed.

Lemma basename_no_sep (path : string) : no_sep (os_path_basename path) = true.
Proof.
  pose proof (components_from_no_sep EmptyString path eq_refl) as H.
  rewrite Forall_forall in H. apply H, basename_in_components.
Qed.

Lemma endswith_sep_inv (s : string) :
  endswith s sep = true → ∃ s', s = s' +:+ sep.
Proof.
  unfold endswith, sep. cbn [String.length].
  induction s as [|c s IH]; [done|].
  destruct s as [|d s].
  - cbn. intros H. exists EmptyString.
    destruct (Ascii.eqb c "/") eqn:E; [|done].
    by apply Ascii.eqb_eq in E as ->.
  - intros H. destruct IH as [s' Hs'].
    + cbn [String.length] in *. cbn in H |- *.
      rewrite Nat.sub_0_r in *. exact H.
    + exists (String c s'). by rewrite Hs'.
Qed.

(** *** Resolution *)

Lemma next_plain (cur : location) (c : string) :
  c ≠ ".." → next cur c = cur ++ List.filter plain [c].
Proof.
  intros Hc. unfold next. apply String.eqb_neq in Hc. rewrite Hc.
  cbn [List.filter]. destruct (plain c); [done|by rewrite app_nil_r].
Qed.

Lemma walk_app (tree : gmap location item) (c1 : list string) :
  ∀ (cur : location) (c2 : list string),
  walk tree cur (c1 ++ c2)
  = walk tree cur c1 ≫= λ loc, walk tree loc c2.
Proof.
  induction c1 as [|c c1 IH]; intros cur c2; [done|].
  cbn [walk app]. destruct (kind tree cur) as [[content|]|]; [done| |done].
  apply IH.
Qed.

(** Without [..] a walk only goes down, by the names of its path. *)
Lemma walk_names (tree : gmap location item) (comps : list string) :
  ∀ (cur loc : location),
  walk tree cur comps = Some loc → ".." ∉ comps →
  loc = cur ++ List.filter plain comps.
Proof.
  induction comps as [|c comps IH]; intros cur loc H Hdots.
  - injection H as <-. by rewrite app_nil_r.
  - apply not_elem_of_cons in Hdots as [Hc Hdots]. cbn [walk] in H.
    destruct (kind tree cur) as [[content|]|]; [done| |done].
    apply IH in H; [|done]. rewrite next_plain in H by done.
    rewrite H, <- app_assoc. f_equal.
    cbn [List.filter]. by destruct (plain c).
Qed.

Lemma walk_start_folder (tree : gmap location item)
    (cur loc : location) (comps : list string) :
  comps ≠ [] → walk tree cur comps = Some loc → kind tree cur = Some Folder.
Proof.
  destruct comps as [|c comps]; [done|]. intros _. cbn [walk].
  by destruct (kind tree cur) as [[content|]|].
Qed.

(** Two trees with the same folders lead every path to the same
    location. *)
Lemma walk_agree (t1 t2 : gmap location item) (comps : list string) :
  (∀ loc, kind t1 loc = Some Folder ↔ kind t2 loc = Some Folder) →
  ∀ (cur loc : location),
  walk t1 cur comps = Some loc ↔ walk t2 cur comps = Some loc.
Proof.
  intros Hsame. induction comps as [|c comps IH]; intros cur loc; [done|].
  cbn [walk]. specialize (Hsame cur).
  destruct (kind t1 cur) as [[c1|]|], (kind t2 cur) as [[c2|]|];
    try done; try apply IH.
  all: try (by destruct Hsame as [H _]; discriminate H).
  all: try (by destruct Hsame as [_ H]; discriminate H).
Qed.

Lemma kind_insert (tree : gmap location item) (loc l : location) (x : item) :
  loc ≠ [] →
  kind (<[loc := x]> tree) l = if decide (loc = l) then Some x else kind tree l.
Proof.
  intros Hne. unfold kind. destruct l as [|n l].
  - by rewrite decide_False.
  - destruct (decide (loc = n :: l)) as [->|Hd].
    + by rewrite lookup_insert_eq.
    + by rewrite lookup_insert_ne.
Qed.

Section ResolveFacts.
Variable cwd : location.

Abbreviation resolve := (Prep.resolve cwd).

Lemma resolve_agree (t1 t2 : gmap location item) (path : string) :
  (∀ loc, kind t1 loc = Some Folder ↔ kind t2 loc = Some Folder) →
  ∀ loc, resolve t1 path = Some loc ↔ resolve t2 path = Some loc.
Proof.
  intros Hsame loc. unfold Prep.resolve.
  destruct (String.eqb path EmptyString); [done|]. by apply walk_agree.
Qed.

(** A path below a relative folder, without [..]: where it leads. *)
Lemma resolve_under (tree : gmap location item) (folder name : string)
    (loc : location) :
  folder ≠ EmptyString →
  startswith folder sep = false →
  ".." ∉ components folder →
  ".." ∉ components name →
  resolve tree (folder +:+ String "/" name) = Some loc →
  loc = (cwd ++ List.filter plain (components folder))
        ++ List.filter plain (components name)
  ∧ kind tree (cwd ++ List.filter plain (components folder)) = Some Folder.
Proof.
  intros Hne Hrel Hf Hn. unfold Prep.resolve.
  destruct folder as [|c folder]; [done|].
  change (String c folder +:+ String "/" name)
    with (String c (folder +:+ String "/" name)).
  cbn [String.eqb].
  assert (startswith (String c (folder +:+ String "/" name)) sep = false) as ->.
  { by rewrite startswith_sep_cons in *. }
  change (String c (folder +:+ String "/" name))
    with (String c folder +:+ String "/" name).
  rewrite components_app, walk_app.
  destruct (walk tree cwd (components (String c folder))) as [l|] eqn:E1;
    [|done].
  cbn [mbind option_bind]. intros E2.
  apply walk_names in E1 as ->; [|done].
  split; [by apply walk_names in E2|].
  eapply walk_start_folder; [|exact E2]. apply components_from_nonempty.
Qed.
End ResolveFacts.

(** *** The paths of the notebook *)

Lemma join_fixed (folder name : string) :
  folder = audio_path ∨ folder = fake_folder ∨ folder = real_folder →
  os_path_join folder [name]
  = if startswith name sep then name else folder +:+ String "/" name.
Proof. by intros [->|[->| ->]]. Qed.

Lemma last_app_nonempty {A : Type} (l1 l2 : list A) (d : A) :
  l2 ≠ [] → List.last (l1 ++ l2) d = List.last l2 d.
Proof.
  destruct l2 as [|x l2 _] using rev_ind; [done|]. intros _.
  by rewrite app_assoc, !last_last.
Qed.

Lemma endswith_sep_last (s : string) :
  endswith s sep = true → List.last (components s) EmptyString = EmptyString.
Proof.
  intros H. apply endswith_sep_inv in H as [s' ->].
  change (s' +:+ sep) with (s' +:+ String "/" EmptyString).
  rewrite components_app. apply last_last.
Qed.

Lemma inside_nonempty (folder rest : location) :
  rest ≠ [] → inside folder (folder ++ rest).
Proof. destruct rest as [|name rest]; [done|]. intros _. by exists name, rest. Qed.

Section PreparationFacts.
Variable cwd : location.
Variable refuses :
  gmap location item → string → string → option (exn * option string).
Variable os_error : gmap location item → string → exn.

Abbreviation resolve := (Prep.resolve cwd).
Abbreviation os_path_exists := (Prep.os_path_exists cwd).
Abbreviation os_path_isdir := (Prep.os_path_isdir cwd).
Abbreviation samefile := (Prep.samefile cwd).
Abbreviation read_file := (Prep.read_file cwd os_error).
Abbreviation shutil_copy := (Prep.shutil_copy cwd refuses os_error).
Abbreviation prepare_row := (Prep.prepare_row cwd refuses os_error).
Abbreviation prepare := (Prep.prepare cwd refuses os_error).
Abbreviation audio_location := (Prep.audio_location cwd).
Abbreviation fake_location := (Prep.fake_location cwd).
Abbreviation real_location := (Prep.real_location cwd).
Abbreviation label_location := (Prep.label_location cwd).

Lemma dest_folder_cases (row : meta_row) :
  Prep.dest_folder row = fake_folder ∧ label_location row = fake_location
  ∨ Prep.dest_folder row = real_folder ∧ label_location row = real_location.
Proof.
  unfold Prep.dest_folder, Prep.label_location.
  destruct (String.eqb _ _); auto.
Qed.

Lemma src_relative (row : meta_row) :
  startswith (row_file row) sep = false →
  Prep.src_path row = audio_path +:+ String "/" (row_file row).
Proof.
  intros H. unfold Prep.src_path. rewrite join_fixed by auto. by rewrite H.
Qed.

Lemma dest_relative (row : meta_row) :
  startswith (row_file row) sep = false →
  Prep.dest_path row = Prep.dest_folder row +:+ String "/" (row_file row).
Proof.
  intros H. unfold Prep.dest_path.
  destruct (dest_folder_cases row) as [[E _]|[E _]];
    rewrite E, join_fixed by auto; by rewrite H.
Qed.

Lemma absolute_paths (row : meta_row) :
  startswith (row_file row) sep = true →
  Prep.src_path row = row_file row ∧ Prep.dest_path row = row_file row.
Proof.
  intros H. unfold Prep.src_path, Prep.dest_path.
  destruct (dest_folder_cases row) as [[E _]|[E _]];
    rewrite E, !join_fixed by auto; by rewrite H.
Qed.

(** Where the source and the destination of a plain name lead. *)
Lemma src_resolves (tree : gmap location item) (row : meta_row) (loc : location) :
  plain_name (row_file row) →
  resolve tree (Prep.src_path row) = Some loc →
  loc = audio_location ++ Prep.names row.
Proof.
  intros [Hrel Hdots]. rewrite src_relative by done. intros H.
  apply resolve_under in H as [-> _]; try done.
  by apply (bool_decide_unpack _); vm_compute.
Qed.

Lemma dest_resolves (tree : gmap location item) (row : meta_row) (loc : location) :
  plain_name (row_file row) →
  resolve tree (Prep.dest_path row) = Some loc →
  loc = label_location row ++ Prep.names row
  ∧ kind tree (label_location row) = Some Folder.
Proof.
  intros [Hrel Hdots]. rewrite dest_relative by done. intros H.
  destruct (dest_folder_cases row) as [[Hf ->]|[Hf ->]]; rewrite Hf in H;
    apply resolve_under in H as [-> Hk]; try done;
    by apply (bool_decide_unpack _); vm_compute.
Qed.

Lemma label_inside_cases (row : meta_row) (loc : location) :
  inside (label_location row) loc →
  inside fake_location loc ∨ inside real_location loc.
Proof. destruct (dest_folder_cases row) as [[_ ->]|[_ ->]]; auto. Qed.

(** The folder of the sources and the label folders are apart. *)
Lemma audio_outside (rest : location) :
  ¬ inside fake_location (audio_location ++ rest)
  ∧ ¬ inside real_location (audio_location ++ rest).
Proof.
  unfold Prep.audio_location, Prep.fake_location, Prep.real_location, inside.
  split; intros (name & rest' & E); rewrite <- !app_assoc in E;
    apply app_inv_head in E; discriminate E.
Qed.

Lemma label_locations_apart (r1 r2 : meta_row) (n1 n2 : location) :
  label_location r1 ++ n1 = label_location r2 ++ n2 →
  label_location r1 = label_location r2 ∧ n1 = n2.
Proof.
  destruct (dest_folder_cases r1) as [[_ ->]|[_ ->]],
           (dest_folder_cases r2) as [[_ ->]|[_ ->]];
    unfold Prep.fake_location, Prep.real_location; rewrite <- !app_assoc;
    intros E; apply app_inv_head in E; by simplify_eq/=.
Qed.

Lemma audio_label_apart (row : meta_row) (n1 n2 : location) :
  audio_location ++ n1 ≠ label_location row ++ n2.
Proof.
  destruct (dest_folder_cases row) as [[_ ->]|[_ ->]];
    unfold Prep.audio_location, Prep.fake_location, Prep.real_location;
    rewrite <- !app_assoc; intros E; apply app_inv_head in E; discriminate E.
Qed.

(** *** One copy *)

(** Where a copy writes, when it writes. *)
Lemma written_inside (tree : gmap location item) (row : meta_row)
    (content : string) (loc : location) :
  ".." ∉ components (row_file row) →
  let dst :=
    if os_path_isdir tree (Prep.dest_path row)
    then os_path_join (Prep.dest_path row) [os_path_basename (Prep.src_path row)]
    else Prep.dest_path row in
  samefile tree (Prep.src_path row) dst = false →
  read_file tree (Prep.src_path row) = Ok content →
  resolve tree dst = Some loc →
  kind tree loc ≠ Some Folder →
  inside (label_location row) loc.
Proof.
  intros Hdots dst Hsame Hread Hres Hkind.
  destruct (startswith (row_file row) sep) eqn:Habs.
  { (* an absolute name: source and destination are one path *)
    exfalso. destruct (absolute_paths row Habs) as [Hs Hd].
    subst dst. rewrite Hs, Hd in *.
    unfold Prep.read_file in Hread. unfold Prep.os_path_isdir in *.
    unfold Prep.samefile in Hsame.
    destruct (resolve tree (row_file row)) as [l|] eqn:El; [|done].
    destruct (kind tree l) as [[c0|]|] eqn:Ek; [|done..].
    rewrite El, Ek in Hsame.
    rewrite !bool_decide_eq_true_2 in Hsame by eauto. done. }
  assert (plain_name (row_file row)) as Hplain by done.
  pose proof (basename_no_sep (Prep.src_path row)) as Hb.
  assert (os_path_basename (Prep.src_path row)
          = List.last (components (row_file row)) EmptyString) as Hbase.
  { unfold os_path_basename. rewrite src_relative, components_app by done.
    apply last_app_nonempty, components_from_nonempty. }
  assert (List.last (components (Prep.dest_path row)) EmptyString
          = os_path_basename (Prep.src_path row)) as Hlast.
  { rewrite Hbase, dest_relative, components_app by done.
    apply last_app_nonempty, components_from_nonempty. }
  destruct (os_path_isdir tree (Prep.dest_path row)) eqn:Hdir.
  2: { subst dst. apply dest_resolves in Hres as [-> Hk]; [|done].
       apply inside_nonempty. intros E. rewrite E, app_nil_r in Hkind. done. }
  (* the destination is a folder: the copy goes into it *)
  unfold Prep.os_path_isdir in Hdir.
  destruct (resolve tree (Prep.dest_path row)) as [ld|] eqn:Eld; [|done].
  destruct (kind tree ld) as [[c0|]|] eqn:Ekd; try done.
  pose proof (dest_resolves tree row ld Hplain Eld) as [-> Hk].
  subst dst. unfold os_path_join, join2 in Hres. cbn [fold_left] in Hres.
  rewrite (no_sep_relative _ Hb) in Hres.
  destruct (String.eqb (Prep.dest_path row) EmptyString
            || endswith (Prep.dest_path row) sep) eqn:Hend.
  - (* a destination that ends with a separator has an empty base name *)
    exfalso. apply orb_true_iff in Hend as [Hend|Hend].
    { rewrite dest_relative in Hend by done.
      destruct (dest_folder_cases row) as [[E _]|[E _]]; rewrite E in Hend;
        discriminate Hend. }
    apply endswith_sep_last in Hend. rewrite Hlast in Hend.
    rewrite Hend, append_nil_r, Eld in Hres. injection Hres as <-. done.
  - rewrite dest_relative in Hres by done.
    rewrite append_assoc in Hres.
    change (String "/" (row_file row) +:+ sep +:+ os_path_basename (Prep.src_path row))
      with (String "/" (row_file row +:+ String "/" (os_path_basename (Prep.src_path row))))
      in Hres.
    assert (components (row_file row +:+ String "/" (os_path_basename (Prep.src_path row)))
            = components (row_file row) ++ [os_path_basename (Prep.src_path row)])
      as Hcomps.
    { rewrite components_app. f_equal. unfold components.
      by rewrite components_single. }
    assert (os_path_basename (Prep.src_path row) ≠ "..") as Hbdots.
    { intros E. apply Hdots. rewrite <- E, Hbase.
      pose proof (components_from_nonempty EmptyString (row_file row)) as Hne.
      unfold components.
      destruct (components_from EmptyString (row_file row)) as [|c l _]
        using rev_ind; [done|].
      rewrite last_last. apply elem_of_app. right. apply list_elem_of_here. }
    assert (loc = (label_location row ++ Prep.names row)
                  ++ List.filter plain [os_path_basename (Prep.src_path row)])
      as Hloc.
    { destruct (dest_folder_cases row) as [[Hf Hl]|[Hf Hl]]; rewrite Hf in Hres;
        apply resolve_under in Hres as [Hres _]; try done;
        try (by apply (bool_decide_unpack _); vm_compute);
        try (rewrite Hcomps; apply not_elem_of_app; split;
             [done|by apply not_elem_of_cons; split; [|apply not_elem_of_nil]]).
      all: rewrite Hres, Hcomps, List.filter_app, Hl;
        unfold Prep.fake_location, Prep.real_location, Prep.names;
        rewrite <- !app_assoc; reflexivity. }
    rewrite Hloc, <- app_assoc. apply inside_nonempty.
    intros E. apply app_eq_nil in E as [_ E].
    rewrite Hloc, E, app_nil_r, Ekd in Hkind. done.
Qed.
(** One row changes nothing, or puts a regular file inside the folder
    of its label, at a location that holds no folder. *)
Lemma row_effect (row : meta_row) (tree : gmap location item) (out : list string) :
  ".." ∉ components (row_file row) →
  (prepare_row row (tree, out)).1 = tree
  ∨ ∃ content loc,
      (prepare_row row (tree, out)).1 = <[loc := Blob content]> tree
      ∧ inside (label_location row) loc
      ∧ kind tree loc ≠ Some Folder.
Proof.
  intros Hdots. unfold Prep.prepare_row.
  destruct (os_path_exists tree (Prep.src_path row)); cbn [negb]; [|by left].
  unfold Prep.shutil_copy.
  destruct (samefile tree _ _) eqn:Hsame; [by left|].
  destruct (read_file tree _) as [content|e] eqn:Hread; [|by left].
  destruct (resolve tree _) as [loc|] eqn:Hres; [|by left].
  pose proof (written_inside tree row content loc Hdots Hsame Hread Hres) as Hin.
  destruct (kind tree loc) as [[c0|]|] eqn:Hkind; [|by left|];
    (destruct (refuses tree _ _) as [[e [partial|]]|]; [right|by left|right]);
    eexists _, loc; (split; [reflexivity|]);
    (split; [by apply Hin|by rewrite Hkind]).
Qed.

Lemma inside_kind (tree : gmap location item) (folder loc : location) :
  inside folder loc → kind tree loc = tree !! loc.
Proof. intros (name & rest & ->). by destruct folder. Qed.

Lemma grown_refl (tree : gmap location item) : grown cwd tree tree.
Proof. intros loc. by left. Qed.

Lemma grown_trans (t1 t2 t3 : gmap location item) :
  grown cwd t1 t2 → grown cwd t2 t3 → grown cwd t1 t3.
Proof.
  intros H12 H23 loc.
  destruct (H23 loc) as [E|(Hc & Hin & Hf)].
  - rewrite E. apply H12.
  - right. split; [done|]. split; [done|].
    destruct (H12 loc) as [E|(_ & _ & Hf')]; [by rewrite <- E|done].
Qed.

Lemma row_grown (row : meta_row) (tree : gmap location item) (out : list string) :
  ".." ∉ components (row_file row) →
  grown cwd tree (prepare_row row (tree, out)).1.
Proof.
  intros Hdots.
  destruct (row_effect row tree out Hdots) as [->|(content & l & -> & Hin & Hk)];
    [apply grown_refl|].
  intros loc. destruct (decide (l = loc)) as [->|Hne].
  - right. rewrite lookup_insert_eq. split; [eauto|].
    split; [by eapply label_inside_cases|].
    by rewrite <- (inside_kind _ _ _ Hin).
  - left. by rewrite lookup_insert_ne.
Qed.

Lemma prepare_cons (row : meta_row) (metadata : list meta_row)
    (st : gmap location item * list string) :
  prepare (row :: metadata) st = prepare metadata (prepare_row row st).
Proof. done. Qed.

Lemma prepare_grown (metadata : list meta_row) :
  ∀ (tree : gmap location item) (out : list string),
  Forall (λ row, ".." ∉ components (row_file row)) metadata →
  grown cwd tree (prepare metadata (tree, out)).1.
Proof.
  induction metadata as [|row metadata IH]; intros tree out Hdots;
    [apply grown_refl|].
  apply Forall_cons in Hdots as [Hrow Hdots]. rewrite prepare_cons.
  pose proof (row_grown row tree out Hrow) as Hstep.
  destruct (prepare_row row (tree, out)) as [tree1 out1].
  eapply grown_trans; [exact Hstep|]. by apply IH.
Qed.

(** *** What a grown tree keeps *)

Lemma grown_folders (t t' : gmap location item) (loc : location) :
  grown cwd t t' → kind t' loc = Some Folder ↔ kind t loc = Some Folder.
Proof.
  intros Hg. destruct loc as [|n loc]; [done|]. cbn [kind].
  destruct (Hg (n :: loc)) as [->|((c & Hc) & _ & Hf)]; [done|].
  rewrite Hc. split; [done|]. intros E. by rewrite E in Hf.
Qed.

Lemma grown_outside (t t' : gmap location item) (rest : location) :
  grown cwd t t' →
  t' !! (audio_location ++ rest) = t !! (audio_location ++ rest).
Proof.
  intros Hg. destruct (Hg (audio_location ++ rest)) as [E|(_ & Hin & _)]; [done|].
  destruct (audio_outside rest) as [H1 H2]. by destruct Hin.
Qed.

Lemma grown_resolve (t t' : gmap location item) (path : string) (loc : location) :
  grown cwd t t' → resolve t' path = Some loc ↔ resolve t path = Some loc.
Proof.
  intros Hg. apply resolve_agree. intros l. by apply grown_folders.
Qed.

Lemma grown_resolve_eq (t t' : gmap location item) (path : string) :
  grown cwd t t' →
  match resolve t' path, resolve t path with
  | Some l', Some l => l' = l
  | None, None => True
  | _, _ => False
  end.
Proof.
  intros Hg.
  destruct (resolve t' path) as [l'|] eqn:E', (resolve t path) as [l|] eqn:E;
    try done.
  - apply (grown_resolve _ _ _ _ Hg) in E'. congruence.
  - apply (grown_resolve _ _ _ _ Hg) in E'. congruence.
  - apply (grown_resolve _ _ _ _ Hg) in E. congruence.
Qed.

Lemma audio_kind (t : gmap location item) (rest : location) :
  kind t (audio_location ++ rest) = t !! (audio_location ++ rest).
Proof. unfold Prep.audio_location. by destruct cwd. Qed.

Lemma grown_exists (t t' : gmap location item) (row : meta_row) :
  grown cwd t t' → plain_name (row_file row) →
  os_path_exists t' (Prep.src_path row) = os_path_exists t (Prep.src_path row).
Proof.
  intros Hg Hplain. unfold Prep.os_path_exists.
  pose proof (grown_resolve_eq t t' (Prep.src_path row) Hg) as Hr.
  destruct (resolve t' (Prep.src_path row)) as [l'|] eqn:E',
           (resolve t (Prep.src_path row)) as [l|] eqn:E; try done.
  subst l'. apply src_resolves in E as ->; [|done].
  by rewrite !audio_kind, (grown_outside t t').
Qed.

Lemma grown_read (t t' : gmap location item) (row : meta_row) :
  grown cwd t t' → plain_name (row_file row) →
  is_ok (read_file t' (Prep.src_path row)) = is_ok (read_file t (Prep.src_path row))
  ∧ ∀ content, read_file t' (Prep.src_path row) = Ok content ↔
               read_file t (Prep.src_path row) = Ok content.
Proof.
  intros Hg Hplain. unfold Prep.read_file.
  pose proof (grown_resolve_eq t t' (Prep.src_path row) Hg) as Hr.
  destruct (resolve t' (Prep.src_path row)) as [l'|] eqn:E',
           (resolve t (Prep.src_path row)) as [l|] eqn:E; try done.
  subst l'. apply src_resolves in E as ->; [|done].
  rewrite !audio_kind, (grown_outside t t') by done.
  by destruct (t !! _) as [[c|]|].
Qed.

Lemma grown_isdir (t t' : gmap location item) (path : string) :
  grown cwd t t' → os_path_isdir t' path = os_path_isdir t path.
Proof.
  intros Hg. unfold Prep.os_path_isdir.
  pose proof (grown_resolve_eq t t' path Hg) as Hr.
  destruct (resolve t' path) as [l'|] eqn:E', (resolve t path) as [l|] eqn:E;
    try done.
  subst l'. pose proof (grown_folders t t' l Hg) as Hf.
  destruct (kind t' l) as [[c'|]|], (kind t l) as [[c|]|]; try done.
  all: try (by destruct Hf as [H _]; discriminate H).
  all: try (by destruct Hf as [_ H]; discriminate H).
Qed.

Lemma grown_writable (t t' : gmap location item) (path : string) :
  grown cwd t t' → Prep.writable cwd t path → Prep.writable cwd t' path.
Proof.
  intros Hg (loc & Hr & Hk). exists loc.
  split; [by apply (grown_resolve t t')|].
  intros E. by apply (grown_folders t t' loc Hg) in E.
Qed.

(** *** One row, when the copy can be made *)

Lemma row_exact (row : meta_row) (tree : gmap location item) (out : list string) :
  plain_name (row_file row) →
  Prep.writable cwd tree (Prep.dest_path row) →
  refuses tree (Prep.src_path row) (Prep.dest_path row) = None →
  prepare_row row (tree, out)
  = if os_path_exists tree (Prep.src_path row) then
      match read_file tree (Prep.src_path row) with
      | Ok content =>
          (<[label_location row ++ Prep.names row := Blob content]> tree, out)
      | Raise e =>
          (tree, out ++ ["Error moving file " +:+ row_file row +:+ ": "
                         +:+ exn_msg e])
      end
    else
      (tree, out ++ ["File not found: " +:+ Prep.src_path row +:+ ". Skipping..."]).
Proof.
  intros Hplain (ld & Hld & Hkd) Href. unfold Prep.prepare_row.
  destruct (os_path_exists tree (Prep.src_path row)); cbn [negb]; [|done].
  unfold Prep.shutil_copy.
  assert (os_path_isdir tree (Prep.dest_path row) = false) as ->.
  { unfold Prep.os_path_isdir. rewrite Hld. by destruct (kind tree ld) as [[c|]|]. }
  assert (samefile tree (Prep.src_path row) (Prep.dest_path row) = false) as ->.
  { unfold Prep.samefile.
    destruct (resolve tree (Prep.src_path row)) as [ls|] eqn:Els; [|done].
    rewrite Hld. apply src_resolves in Els as ->; [|done].
    apply dest_resolves in Hld as [-> _]; [|done].
    rewrite (bool_decide_eq_false_2 (_ = _)) by apply audio_label_apart.
    by rewrite andb_false_r. }
  destruct (read_file tree (Prep.src_path row)) as [content|e]; [|done].
  rewrite Hld. pose proof (dest_resolves _ _ _ Hplain Hld) as [-> _].
  destruct (kind tree _) as [[c0|]|]; [|done|]; by rewrite Href.
Qed.

Lemma read_exists (tree : gmap location item) (path content : string) :
  read_file tree path = Ok content → os_path_exists tree path = true.
Proof.
  unfold Prep.read_file, Prep.os_path_exists.
  destruct (resolve tree path) as [l|]; [|done].
  destruct (kind tree l) as [[c|]|]; [|done..]. intros _.
  by apply bool_decide_eq_true_2.
Qed.

Lemma read_location (tree : gmap location item) (row : meta_row) (content : string) :
  plain_name (row_file row) →
  read_file tree (Prep.src_path row) = Ok content →
  tree !! (audio_location ++ Prep.names row) = Some (Blob content).
Proof.
  intros Hplain. unfold Prep.read_file.
  destruct (resolve tree (Prep.src_path row)) as [l|] eqn:E; [|done].
  apply src_resolves in E as ->; [|done]. rewrite audio_kind.
  destruct (tree !! _) as [[c|]|]; [|done..]. by intros [= ->].
Qed.

(** *** The whole table, when the copies can be made *)

(** A file that can be read at its source, listed or already at its
    destination, is at its destination when the loop ends. *)
Lemma copied_generic (metadata : list meta_row) :
  ∀ (tree : gmap location item) (out : list string),
  Forall (λ row, plain_name (row_file row)) metadata →
  Forall (λ row, Prep.writable cwd tree (Prep.dest_path row)) metadata →
  (∀ t, Forall (λ row, refuses t (Prep.src_path row) (Prep.dest_path row) = None)
          metadata) →
  ∀ (row : meta_row) (content : string),
  plain_name (row_file row) →
  row ∈ metadata
  ∨ tree !! (label_location row ++ Prep.names row) = Some (Blob content) →
  read_file tree (Prep.src_path row) = Ok content →
  (prepare metadata (tree, out)).1 !! (label_location row ++ Prep.names row)
  = Some (Blob content).
Proof.
  induction metadata as [|r0 metadata IH];
    intros tree out Hplain Hw Hok row content Hrow Hcase Hread.
  { destruct Hcase as [Hin|Hd]; [by apply elem_of_nil in Hin|done]. }
  rewrite prepare_cons.
  apply Forall_cons in Hplain as [Hplain0 Hplain].
  apply Forall_cons in Hw as [Hw0 Hw].
  assert (refuses tree (Prep.src_path r0) (Prep.dest_path r0) = None) as Hok0.
  { specialize (Hok tree). by apply Forall_cons in Hok as [? _]. }
  pose proof (row_exact r0 tree out Hplain0 Hw0 Hok0) as Hex.
  pose proof (row_grown r0 tree out (proj2 Hplain0)) as Hg.
  destruct (prepare_row r0 (tree, out)) as [t1 o1]. cbn [fst] in *.
  apply IH; [done| | |done| |].
  - eapply Forall_impl; [exact Hw|]. intros x Hx. by eapply grown_writable.
  - intros t. specialize (Hok t). by apply Forall_cons in Hok as [_ ?].
  - destruct Hcase as [Hin|Hd].
    + apply elem_of_cons in Hin as [->|Hin]; [right|by left].
      rewrite (read_exists _ _ _ Hread), Hread in Hex.
      injection Hex as -> _. by rewrite lookup_insert_eq.
    + right. destruct (os_path_exists tree (Prep.src_path r0));
        [|by injection Hex as -> _].
      destruct (read_file tree (Prep.src_path r0)) as [c0|e] eqn:Hread0;
        injection Hex as -> _; [|done].
      destruct (decide (label_location r0 ++ Prep.names r0
                        = label_location row ++ Prep.names row)) as [Heq|Hneq].
      * rewrite Heq, lookup_insert_eq. do 2 f_equal.
        apply label_locations_apart in Heq as [_ Hn].
        apply read_location in Hread0; [|done].
        apply read_location in Hread; [|done].
        rewrite Hn in Hread0. congruence.
      * by rewrite lookup_insert_ne.
  - by apply (grown_read tree t1 row Hg Hrow).
Qed.

Lemma messages_generic (metadata : list meta_row) :
  ∀ (tree : gmap location item) (out : list string),
  Forall (λ row, plain_name (row_file row)) metadata →
  Forall (λ row, Prep.writable cwd tree (Prep.dest_path row)) metadata →
  Forall (λ row, os_path_isdir tree (Prep.src_path row) = false) metadata →
  (∀ t, Forall (λ row, refuses t (Prep.src_path row) (Prep.dest_path row) = None)
          metadata) →
  (prepare metadata (tree, out)).2
  = out ++ map (λ row, "File not found: " +:+ Prep.src_path row +:+ ". Skipping...")
             (List.filter (λ row, negb (os_path_exists tree (Prep.src_path row)))
                metadata).
Proof.
  induction metadata as [|r0 metadata IH]; intros tree out Hplain Hw Hsf Hok.
  { cbn. by rewrite app_nil_r. }
  rewrite prepare_cons.
  apply Forall_cons in Hplain as [Hplain0 Hplain].
  apply Forall_cons in Hw as [Hw0 Hw].
  apply Forall_cons in Hsf as [Hsf0 Hsf].
  assert (refuses tree (Prep.src_path r0) (Prep.dest_path r0) = None) as Hok0.
  { specialize (Hok tree). by apply Forall_cons in Hok as [? _]. }
  pose proof (row_exact r0 tree out Hplain0 Hw0 Hok0) as Hex.
  pose proof (row_grown r0 tree out (proj2 Hplain0)) as Hg.
  destruct (prepare_row r0 (tree, out)) as [t1 o1]. cbn [fst] in *.
  rewrite IH; [|done| | |].
  - rewrite (filter_ext_in
               (λ row, negb (os_path_exists t1 (Prep.src_path row)))
               (λ row, negb (os_path_exists tree (Prep.src_path row)))).
    2:{ intros row Hin. f_equal. apply grown_exists; [done|].
        rewrite Forall_forall in Hplain. by apply Hplain, list_elem_of_In. }
    cbn [List.filter].
    destruct (os_path_exists tree (Prep.src_path r0)) eqn:Hex0; cbn [negb].
    + assert (is_ok (read_file tree (Prep.src_path r0)) = true) as Hread.
      { revert Hex0 Hsf0. unfold Prep.os_path_exists, Prep.os_path_isdir,
          Prep.read_file.
        destruct (resolve tree (Prep.src_path r0)) as [l|]; [|done].
        by destruct (kind tree l) as [[c|]|]. }
      destruct (read_file tree (Prep.src_path r0)) as [c0|e]; [|done].
      by injection Hex as _ ->.
    + injection Hex as _ ->. cbn [map]. by rewrite <- app_assoc.
  - eapply Forall_impl; [exact Hw|]. intros x Hx. by eapply grown_writable.
  - eapply Forall_impl; [exact Hsf|]. intros x Hx. by rewrite (grown_isdir tree t1).
  - intros t. specialize (Hok t). by apply Forall_cons in Hok as [_ ?].
Qed.

(** On a tree where every source that can be read is already at its
    destination, the loop changes nothing. *)
Lemma settled_generic (metadata : list meta_row) :
  ∀ (tree : gmap location item) (out : list string),
  Forall (λ row, plain_name (row_file row)) metadata →
  Forall (λ row, Prep.writable cwd tree (Prep.dest_path row)) metadata →
  (∀ t, Forall (λ row, refuses t (Prep.src_path row) (Prep.dest_path row) = None)
          metadata) →
  Forall (λ row, ∀ content,
            read_file tree (Prep.src_path row) = Ok content →
            tree !! (label_location row ++ Prep.names row) = Some (Blob content))
    metadata →
  (prepare metadata (tree, out)).1 = tree.
Proof.
  induction metadata as [|r0 metadata IH]; intros tree out Hplain Hw Hok Hset;
    [done|].
  rewrite prepare_cons.
  apply Forall_cons in Hplain as [Hplain0 Hplain].
  apply Forall_cons in Hw as [Hw0 Hw].
  apply Forall_cons in Hset as [Hset0 Hset].
  assert (refuses tree (Prep.src_path r0) (Prep.dest_path r0) = None) as Hok0.
  { specialize (Hok tree). by apply Forall_cons in Hok as [? _]. }
  rewrite (row_exact r0 tree out Hplain0 Hw0 Hok0).
  assert (∀ t, Forall (λ row, refuses t (Prep.src_path row) (Prep.dest_path row) = None)
                 metadata) as Hok'.
  { intros t. specialize (Hok t). by apply Forall_cons in Hok as [_ ?]. }
  destruct (os_path_exists tree (Prep.src_path r0)); [|by apply IH].
  destruct (read_file tree (Prep.src_path r0)) as [c0|e]; [|by apply IH].
  rewrite insert_id by auto. by apply IH.
Qed.
End PreparationFacts.

(** ** Properties of the preparation of the flat dataset *)

(** A property of every row of a table that is written out. *)
Ltac each_row tac :=
  repeat (apply List.Forall_cons; [tac|]); apply List.Forall_nil.

Ltac decided := apply (bool_decide_unpack _); vm_compute; reflexivity.

(** X11.  Whatever the operating system refuses and whatever the tree
    holds, when no listed name has a [..] component, the loop only adds
    regular files inside the two label folders: every location holds
    afterwards what it held before, or it holds a regular file, lies
    inside [./data/processed_data/fake] or [./data/processed_data/real]
    and held no folder before.  So nothing is removed, no folder is made
    or replaced, and the source of every listed relative name holds what
    it held: the files are copied, not moved. *)
Theorem prepare_writes_only_label_folders (cwd : location)
    (refuses : gmap location item → string → string → option (exn * option string))
    (os_error : gmap location item → string → exn)
    (metadata : list meta_row) (tree : gmap location item) (out : list string) :
  Forall (λ row, ".." ∉ components (row_file row)) metadata →
  let final := (Prep.prepare cwd refuses os_error metadata (tree, out)).1 in
  (∀ loc,
     final !! loc = tree !! loc
     ∨ (∃ content, final !! loc = Some (Blob content))
       ∧ (inside (cwd ++ ["data"; "processed_data"; "fake"]) loc
          ∨ inside (cwd ++ ["data"; "processed_data"; "real"]) loc)
       ∧ tree !! loc ≠ Some Folder)
  ∧ (∀ row loc,
       row ∈ metadata →
       startswith (row_file row) sep = false →
       Prep.resolve cwd tree (Prep.src_path row) = Some loc →
       final !! loc = tree !! loc).
Proof.
  intros Hdots final.
  pose proof (prepare_grown cwd refuses os_error metadata tree out Hdots) as Hg.
  split; [exact Hg|].
  intros row loc Hin Hrel Hres.
  assert (plain_name (row_file row)) as Hplain.
  { split; [done|]. rewrite Forall_forall in Hdots. by apply Hdots. }
  apply src_resolves in Hres as ->; [|done].
  by apply grown_outside.
Qed.

Lemma prepare_writes_only_label_folders_witness :
  (Prep.prepare wild_cwd no_refusal no_such_file wild_meta (wild_tree, [])).1
    !! ["home"; "project"; "data"; "release_in_the_wild"; "1.wav"]
  = Some (Blob "one").
Proof.
  destruct (prepare_writes_only_label_folders wild_cwd no_refusal no_such_file wild_meta
              wild_tree []) as [_ H].
  - each_row ltac:(decided).
  - transitivity
      (wild_tree !! ["home"; "project"; "data"; "release_in_the_wild"; "1.wav"]);
      [|reflexivity].
    apply (H (MetaRow "1.wav" "Barack Obama" "bona-fide")).
    + apply list_elem_of_further, list_elem_of_here.
    + reflexivity.
    + by vm_compute.
Defined.

(** X12.  When the listed names are relative and without [..], every
    destination can be written (its path leads to a location that holds
    no folder) and the operating system refuses none of the copies,
    every listed file that can be read at its source ends with the same
    content inside the folder of its label, under the names of its file
    name: [fake] when the label is exactly [spoof], [real] for every
    other label. *)
Theorem present_files_copied_by_label (cwd : location)
    (refuses : gmap location item → string → string → option (exn * option string))
    (os_error : gmap location item → string → exn)
    (metadata : list meta_row) (tree : gmap location item) (out : list string)
    (row : meta_row) (content : string) :
  Forall (λ row, plain_name (row_file row)) metadata →
  Forall (λ row, Prep.writable cwd tree (Prep.dest_path row)) metadata →
  (∀ t, Forall (λ row, refuses t (Prep.src_path row) (Prep.dest_path row) = None)
          metadata) →
  row ∈ metadata →
  Prep.read_file cwd os_error tree (Prep.src_path row) = Ok content →
  (Prep.prepare cwd refuses os_error metadata (tree, out)).1
    !! (cwd
        ++ ["data"; "processed_data";
            if String.eqb (row_label row) "spoof" then "fake" else "real"]
        ++ List.filter plain (components (row_file row)))
  = Some (Blob content).
Proof.
  intros Hplain Hw Hok Hin Hread.
  assert (plain_name (row_file row)) as Hrow.
  { rewrite Forall_forall in Hplain. by apply Hplain. }
  pose proof (copied_generic cwd refuses os_error metadata tree out Hplain Hw Hok row
                content Hrow (or_introl Hin) Hread) as H.
  unfold Prep.label_location, Prep.fake_location, Prep.real_location,
    Prep.names in H.
  destruct (String.eqb (row_label row) "spoof");
    by rewrite <- app_assoc in H.
Qed.

Lemma present_files_copied_by_label_witness :
  (Prep.prepare wild_cwd no_refusal no_such_file wild_meta (wild_tree, [])).1
    !! ["home"; "project"; "data"; "processed_data"; "real"; "2.wav"]
  = Some (Blob "two").
Proof.
  apply (present_files_copied_by_label wild_cwd no_refusal no_such_file wild_meta wild_tree []
           (MetaRow "2.wav" "Alec Guinness" "Spoof") "two").
  - each_row ltac:(split; [reflexivity|decided]).
  - each_row ltac:(eexists; split; [vm_compute; reflexivity|by vm_compute]).
  - intros t. each_row ltac:(reflexivity).
  - do 3 apply list_elem_of_further. apply list_elem_of_here.
  - by vm_compute.
Defined.

(** X13.  Under the same conditions, and when no source is a folder,
    the loop prints one line for each listed file that is not at its
    source, in the order of the table, and nothing else: a file that is
    there is copied without a word. *)
Theorem only_missing_files_reported (cwd : location)
    (refuses : gmap location item → string → string → option (exn * option string))
    (os_error : gmap location item → string → exn)
    (metadata : list meta_row) (tree : gmap location item) (out : list string) :
  Forall (λ row, plain_name (row_file row)) metadata →
  Forall (λ row, Prep.writable cwd tree (Prep.dest_path row)) metadata →
  Forall (λ row, Prep.os_path_isdir cwd tree (Prep.src_path row) = false) metadata →
  (∀ t, Forall (λ row, refuses t (Prep.src_path row) (Prep.dest_path row) = None)
          metadata) →
  (Prep.prepare cwd refuses os_error metadata (tree, out)).2
  = out ++ map (λ row, "File not found: ./data/release_in_the_wild/"
                       +:+ row_file row +:+ ". Skipping...")
             (List.filter
                (λ row, negb (Prep.os_path_exists cwd tree (Prep.src_path row)))
                metadata).
Proof.
  intros Hplain Hw Hsf Hok.
  rewrite (messages_generic cwd refuses os_error metadata tree out Hplain Hw Hsf Hok).
  f_equal. apply map_ext_in. intros row Hin.
  apply filter_In in Hin as [Hin _]. apply list_elem_of_In in Hin.
  rewrite Forall_forall in Hplain. destruct (Hplain row Hin) as [Hrel _].
  by rewrite src_relative.
Qed.

Lemma only_missing_files_reported_witness :
  (Prep.prepare wild_cwd no_refusal no_such_file wild_meta (wild_tree, [])).2
  = ["File not found: ./data/release_in_the_wild/9.wav. Skipping..."].
Proof.
  rewrite (only_missing_files_reported wild_cwd no_refusal no_such_file wild_meta wild_tree []).
  - reflexivity.
  - each_row ltac:(split; [reflexivity|decided]).
  - each_row ltac:(eexists; split; [vm_compute; reflexivity|by vm_compute]).
  - each_row ltac:(vm_compute; reflexivity).
  - intros t. each_row ltac:(reflexivity).
Defined.

(** X14.  Under the conditions of X12, running the loop a second time
    on the tree the first run left changes nothing: every copy of the
    second run writes what is already there. *)
Theorem prepare_again_changes_nothing (cwd : location)
    (refuses : gmap location item → string → string → option (exn * option string))
    (os_error : gmap location item → string → exn)
    (metadata : list meta_row) (tree : gmap location item)
    (out out' : list string) :
  Forall (λ row, plain_name (row_file row)) metadata →
  Forall (λ row, Prep.writable cwd tree (Prep.dest_path row)) metadata →
  (∀ t, Forall (λ row, refuses t (Prep.src_path row) (Prep.dest_path row) = None)
          metadata) →
  let first := (Prep.prepare cwd refuses os_error metadata (tree, out)).1 in
  (Prep.prepare cwd refuses os_error metadata (first, out')).1 = first.
Proof.
  intros Hplain Hw Hok first.
  assert (grown cwd tree first) as Hg.
  { apply prepare_grown. eapply Forall_impl; [exact Hplain|]. by intros x [_ ?]. }
  apply settled_generic; [done| |done|].
  - eapply Forall_impl; [exact Hw|]. intros x Hx. by eapply grown_writable.
  - apply Forall_forall. intros row Hin content Hread.
    assert (plain_name (row_file row)) as Hrow.
    { rewrite Forall_forall in Hplain. by apply Hplain. }
    apply (copied_generic cwd refuses os_error metadata tree out Hplain Hw Hok row content
             Hrow (or_introl Hin)).
    by apply (grown_read cwd os_error tree first row Hg Hrow).
Qed.

Lemma prepare_again_changes_nothing_witness :
  (Prep.prepare wild_cwd no_refusal no_such_file wild_meta
     ((Prep.prepare wild_cwd no_refusal no_such_file wild_meta (wild_tree, [])).1, [])).1
  = (Prep.prepare wild_cwd no_refusal no_such_file wild_meta (wild_tree, [])).1.
Proof.
  apply (prepare_again_changes_nothing wild_cwd no_refusal no_such_file wild_meta wild_tree [] []).
  - each_row ltac:(split; [reflexivity|decided]).
  - each_row ltac:(eexists; split; [vm_compute; reflexivity|by vm_compute]).
  - intros t. each_row ltac:(reflexivity).
Defined.
